(** * Certificate Transparency log front-end: submission handler and HTTP dispatcher

    A shallow embedding of
      - cpp/log/cert_submission_handler.{h,cc}  (CertSubmissionHandler),
      - cpp/log/logged_certificate.cc           (LoggedCertificate::CopyFromClientLogEntry),
      - cpp/server/handler.{h,cc}               (HttpHandler and its helpers),
    followed by the properties of the design document that concern them.

    Conventions.  Byte strings and text are [string].  An optional protobuf
    field is an [option] (its has-bit), a repeated field a [list].  C++
    out-parameters become extra results.  A function that sends a reply,
    schedules work on the thread pool or calls into the certificate checker
    runs in the monad [M], which records these effects in program order and
    has one failure, the abort of the process (a failed CHECK, LOG(FATAL), or
    a null pointer dereference). *)

From Stdlib Require Import ZArith List String Ascii Bool Lia.
From stdpp Require Import base option list gmap strings.

Import ListNotations.
Local Open Scope string_scope.
Local Open Scope list_scope.
Local Open Scope Z_scope.
Set Warnings "-register-all".

(** ** util::Status *)

Module error.

(** Modelled from the spec: util/status.h is not among the sources.  The
    canonical codes are the ones the sources and the design document name
    (invalid_argument, already_exists, resource_exhausted,
    failed_precondition, internal, not_found, unauthenticated) together
    with the remaining codes of the canonical space. *)
Inductive Code : Set :=
| OK | CANCELLED | UNKNOWN | INVALID_ARGUMENT | DEADLINE_EXCEEDED
| NOT_FOUND | ALREADY_EXISTS | PERMISSION_DENIED | RESOURCE_EXHAUSTED
| FAILED_PRECONDITION | ABORTED | OUT_OF_RANGE | UNIMPLEMENTED
| INTERNAL | UNAVAILABLE | DATA_LOSS | UNAUTHENTICATED.

Definition eqb (a b : Code) : bool :=
  match a, b with
  | OK, OK | CANCELLED, CANCELLED | UNKNOWN, UNKNOWN
  | INVALID_ARGUMENT, INVALID_ARGUMENT
  | DEADLINE_EXCEEDED, DEADLINE_EXCEEDED | NOT_FOUND, NOT_FOUND
  | ALREADY_EXISTS, ALREADY_EXISTS | PERMISSION_DENIED, PERMISSION_DENIED
  | RESOURCE_EXHAUSTED, RESOURCE_EXHAUSTED
  | FAILED_PRECONDITION, FAILED_PRECONDITION | ABORTED, ABORTED
  | OUT_OF_RANGE, OUT_OF_RANGE | UNIMPLEMENTED, UNIMPLEMENTED
  | INTERNAL, INTERNAL | UNAVAILABLE, UNAVAILABLE | DATA_LOSS, DATA_LOSS
  | UNAUTHENTICATED, UNAUTHENTICATED => true
  | _, _ => false
  end.

End error.

Record Status : Set := mkStatus {
  CanonicalCode : error.Code;
  error_message : string
}.

(** [Status::OK]. *)
Definition Status_OK : Status := mkStatus error.OK EmptyString.

(** [Status::ok()]. *)
Definition ok (s : Status) : bool := error.eqb (CanonicalCode s) error.OK.

(** ** Protocol buffer messages (proto/ct.proto) *)

(** Modelled from the spec: proto/ct.proto is not among the sources.  The
    three tags are the variants the sources switch on;
    [UNKNOWN_ENTRY_TYPE] stands for every other enumerator. *)
Inductive LogEntryType : Set :=
| X509_ENTRY | PRECERT_ENTRY | SIGNED_DATA_ENTRY | UNKNOWN_ENTRY_TYPE.

Definition LogEntryType_eqb (a b : LogEntryType) : bool :=
  match a, b with
  | X509_ENTRY, X509_ENTRY | PRECERT_ENTRY, PRECERT_ENTRY
  | SIGNED_DATA_ENTRY, SIGNED_DATA_ENTRY
  | UNKNOWN_ENTRY_TYPE, UNKNOWN_ENTRY_TYPE => true
  | _, _ => false
  end.

Record X509ChainEntry : Set := mkX509ChainEntry {
  leaf_certificate : option string;
  certificate_chain : list string
}.

Record PreCert : Set := mkPreCert {
  issuer_key_hash : option string;
  tbs_certificate : option string
}.

Record PrecertChainEntry : Set := mkPrecertChainEntry {
  pre_certificate : option string;
  precertificate_chain : list string;
  pre_cert : option PreCert
}.

Record SignedDataEntry : Set := mkSignedDataEntry {
  sde_keyid : option string;
  sde_data : option string;
  sde_signature : option string
}.

Record LogEntry : Set := mkLogEntry {
  type : option LogEntryType;
  x509_entry : option X509ChainEntry;
  precert_entry : option PrecertChainEntry;
  signed_data_entry : option SignedDataEntry
}.

(** Default-constructed messages. *)
Definition X509ChainEntry_new : X509ChainEntry := mkX509ChainEntry None [].
Definition PreCert_new : PreCert := mkPreCert None None.
Definition PrecertChainEntry_new : PrecertChainEntry :=
  mkPrecertChainEntry None [] None.
Definition SignedDataEntry_new : SignedDataEntry :=
  mkSignedDataEntry None None None.
Definition LogEntry_new : LogEntry := mkLogEntry None None None None.

(** Setters.  [mutable_x()] creates the sub-message when it is absent and
    hands out a pointer to it; a write through that pointer is an update of
    the field of the enclosing message. *)
Definition set_type (t : LogEntryType) (e : LogEntry) : LogEntry :=
  mkLogEntry (Some t) (x509_entry e) (precert_entry e) (signed_data_entry e).

Definition mutable_x509_entry
    (f : X509ChainEntry -> X509ChainEntry) (e : LogEntry) : LogEntry :=
  mkLogEntry (type e)
             (Some (f (default X509ChainEntry_new (x509_entry e))))
             (precert_entry e) (signed_data_entry e).

Definition mutable_precert_entry
    (f : PrecertChainEntry -> PrecertChainEntry) (e : LogEntry) : LogEntry :=
  mkLogEntry (type e) (x509_entry e)
             (Some (f (default PrecertChainEntry_new (precert_entry e))))
             (signed_data_entry e).

Definition mutable_signed_data_entry
    (f : SignedDataEntry -> SignedDataEntry) (e : LogEntry) : LogEntry :=
  mkLogEntry (type e) (x509_entry e) (precert_entry e)
             (Some (f (default SignedDataEntry_new (signed_data_entry e)))).

Definition set_leaf_certificate (der : string) (x : X509ChainEntry) :=
  mkX509ChainEntry (Some der) (certificate_chain x).

Definition add_certificate_chain (der : string) (x : X509ChainEntry) :=
  mkX509ChainEntry (leaf_certificate x) (certificate_chain x ++ [der]).

Definition mutable_pre_cert (f : PreCert -> PreCert) (p : PrecertChainEntry) :=
  mkPrecertChainEntry (pre_certificate p) (precertificate_chain p)
                      (Some (f (default PreCert_new (pre_cert p)))).

Definition set_issuer_key_hash (h : string) (p : PreCert) :=
  mkPreCert (Some h) (tbs_certificate p).

Definition set_tbs_certificate (t : string) (p : PreCert) :=
  mkPreCert (issuer_key_hash p) (Some t).

Definition set_pre_certificate (der : string) (p : PrecertChainEntry) :=
  mkPrecertChainEntry (Some der) (precertificate_chain p) (pre_cert p).

Definition add_precertificate_chain (der : string) (p : PrecertChainEntry) :=
  mkPrecertChainEntry (pre_certificate p) (precertificate_chain p ++ [der])
                      (pre_cert p).

Definition set_keyid (k : string) (s : SignedDataEntry) :=
  mkSignedDataEntry (Some k) (sde_data s) (sde_signature s).

Definition set_data (d : string) (s : SignedDataEntry) :=
  mkSignedDataEntry (sde_keyid s) (Some d) (sde_signature s).

Definition set_signature (g : string) (s : SignedDataEntry) :=
  mkSignedDataEntry (sde_keyid s) (sde_data s) (Some g).

(** Getters of a const message return the default of an unset field. *)
Definition get_type (e : LogEntry) : LogEntryType := default X509_ENTRY (type e).

(** ct::SignedCertificateTimestamp, with [id().key_id()] flattened. *)
Inductive Version : Set := V1.

Record SignedCertificateTimestamp : Set := mkSCT {
  sct_version : option Version;
  sct_id_key_id : string;
  sct_timestamp : Z;
  sct_extensions : option string;
  sct_signature : string   (* the DigitallySigned structure, opaque here *)
}.

Definition SignedCertificateTimestamp_new : SignedCertificateTimestamp :=
  mkSCT None EmptyString 0 None EmptyString.

Record SignedTreeHead : Set := mkSTH {
  sth_tree_size : Z;
  sth_timestamp : Z;
  sth_sha256_root_hash : string;
  sth_signature : string
}.

Record ShortMerkleAuditProof : Set := mkProof {
  proof_leaf_index : Z;
  proof_path_node : list string
}.

(** cert_trans::SignedData: the triple of a signed-data submission. *)
Record SignedData : Set := mkSignedData {
  GetKeyId : string;
  GetData : string;
  GetSignature : string
}.

(** The leaf of an entry fetched from another log (AsyncLogClient::Entry). *)
Record PreCertLeaf : Set := mkPreCertLeaf {
  leaf_issuer_key_hash : string;
  leaf_tbs_certificate : string
}.

Record SignedDataLeaf : Set := mkSignedDataLeaf {
  leaf_keyid : string;
  leaf_data : string
}.

Record SignedEntry : Set := mkSignedEntry {
  se_x509 : string;
  se_precert : PreCertLeaf;
  se_data : SignedDataLeaf
}.

Record TimestampedEntry : Set := mkTimestampedEntry {
  te_timestamp : Z;
  te_entry_type : LogEntryType;
  te_signed_entry : SignedEntry;
  te_extensions : string
}.

Record MerkleTreeLeaf : Set := mkMerkleTreeLeaf {
  timestamped_entry : TimestampedEntry
}.

Record AsyncLogClient_Entry : Set := mkClientEntry {
  cl_leaf : MerkleTreeLeaf;
  cl_entry : LogEntry
}.

(** cert_trans::LoggedCertificate.

    Modelled from the spec: log/logged_certificate.h is not among the
    sources.  The object holds the stored SCT and log entry ("contents"), and
    the sequence number and leaf hash the database assigns; [Clear] resets
    all of them. *)
Record LoggedCertificate : Set := mkLoggedCertificate {
  lc_sequence_number : option Z;
  lc_merkle_leaf_hash : option string;
  lc_sct : option SignedCertificateTimestamp;
  lc_entry : option LogEntry
}.

Definition LoggedCertificate_new : LoggedCertificate :=
  mkLoggedCertificate None None None None.

Definition Clear (_ : LoggedCertificate) : LoggedCertificate :=
  LoggedCertificate_new.

Definition sequence_number (c : LoggedCertificate) : Z :=
  default 0 (lc_sequence_number c).

Definition lc_get_sct (c : LoggedCertificate) : SignedCertificateTimestamp :=
  default SignedCertificateTimestamp_new (lc_sct c).

(** ** JSON values (util/json_wrapper.h)

    A parsed or constructed JSON value.  Binary fields are written with
    [AddBase64]; the encoding itself is not modelled, the value records the
    bytes that were encoded.  [J_signature] is the serialized
    DigitallySigned structure that [Add] writes for an SCT signature. *)
Inductive JsonValue : Set :=
| J_null
| J_int (n : Z)
| J_string (s : string)
| J_base64 (bytes : string)
| J_signature (sig : string)
| J_array (elems : list JsonValue)
| J_object (fields : list (string * JsonValue)).

(** [JsonObject::Add]: appends a field. *)
Definition Json_Add (key : string) (v : JsonValue)
    (fields : list (string * JsonValue)) : list (string * JsonValue) :=
  fields ++ [(key, v)].

Fixpoint json_field (key : string) (fields : list (string * JsonValue))
    : option JsonValue :=
  match fields with
  | [] => None
  | (k, v) :: rest => if String.eqb k key then Some v else json_field key rest
  end.

(** [JsonString(obj, key)]: [Ok()] iff the field exists and is a string. *)
Definition JsonString_field (fields : list (string * JsonValue)) (key : string)
    : option string :=
  match json_field key fields with
  | Some (J_string s) => Some s
  | _ => None
  end.

(** [JsonArray(obj, key)]: [Ok()] iff the field exists and is an array. *)
Definition JsonArray_field (fields : list (string * JsonValue)) (key : string)
    : option (list JsonValue) :=
  match json_field key fields with
  | Some (J_array l) => Some l
  | _ => None
  end.

(** ** HTTP requests (libevent) *)

Inductive evhttp_cmd_type : Set :=
| EVHTTP_REQ_GET | EVHTTP_REQ_POST | EVHTTP_REQ_HEAD | EVHTTP_REQ_PUT
| EVHTTP_REQ_DELETE | EVHTTP_REQ_OPTIONS | EVHTTP_REQ_TRACE
| EVHTTP_REQ_CONNECT | EVHTTP_REQ_PATCH.

Definition is_GET (c : evhttp_cmd_type) : bool :=
  match c with EVHTTP_REQ_GET => true | _ => false end.

Definition is_POST (c : evhttp_cmd_type) : bool :=
  match c with EVHTTP_REQ_POST => true | _ => false end.

(** What the handlers read from a request: the method, the outcome of
    [evhttp_parse_query_str] on the URI ([None] when it reports an error,
    else the key/value pairs in order), and the outcome of parsing the body
    as JSON ([None] when [JsonObject::Ok()] is false). *)
Record evhttp_request : Set := mkRequest {
  evhttp_request_get_command : evhttp_cmd_type;
  req_query : option (list (string * string));
  req_body : option JsonValue
}.

Definition HTTP_OK : Z := 200.
Definition HTTP_BADREQUEST : Z := 400.
Definition HTTP_BADMETHOD : Z := 405.
Definition HTTP_INTERNAL : Z := 500.
Definition HTTP_SERVUNAVAIL : Z := 503.

(** ** Effects *)

(** [M E A]: a computation that emits events of type [E] and returns an [A],
    or aborts the process ([None]). *)
Definition M (E A : Type) : Type := option (A * list E).

Definition ret {E A} (a : A) : M E A := Some (a, []).

Definition bind {E A B} (m : M E A) (k : A -> M E B) : M E B :=
  match m with
  | None => None
  | Some (a, t1) =>
      match k a with
      | None => None
      | Some (b, t2) => Some (b, t1 ++ t2)
      end
  end.

Definition tell {E} (e : E) : M E unit := Some (tt, [e]).

Definition abort {E A} : M E A := None.

(** Dereference of a pointer that may be NULL. *)
Definition deref {E A} (p : option A) : M E A :=
  match p with Some a => ret a | None => abort end.

(** [CHECK(cond)]. *)
Definition CHECK {E} (cond : bool) : M E unit :=
  if cond then ret tt else abort.

Notation "x <- c1 ; c2" := (bind c1 (fun x => c2))
  (at level 20, c1 at level 100, c2 at level 200, only parsing).
Notation "' pat <- c1 ; c2" := (bind c1 (fun x => match x with pat => c2 end))
  (at level 20, pat pattern, c1 at level 100, c2 at level 200, only parsing).

(** The events a computation emitted, and its result. *)
Definition trace_of {E A} (m : M E A) : option (list E) := snd <$> m.
Definition result_of {E A} (m : M E A) : option A := fst <$> m.

(** ** The X.509 backend (log/cert.h, log/ct_extensions.h)

    The certificate library is an external collaborator; the handler only
    uses the operations below.  An operation that returns a util::Status and
    writes its result through a pointer is an [option]: [Some r] is
    [Status::OK] with result [r], [None] any other status (the callers only
    test for OK and discard the status). *)

Definition NID : Set := Z.

Inductive Cert_Status : Set := Cert_TRUE | Cert_FALSE | Cert_ERROR.

Definition Cert_Status_eqb (a b : Cert_Status) : bool :=
  match a, b with
  | Cert_TRUE, Cert_TRUE | Cert_FALSE, Cert_FALSE | Cert_ERROR, Cert_ERROR => true
  | _, _ => false
  end.

Class X509Backend : Type := {
  Cert : Type;
  TbsCertificate : Type;
  NID_ctEmbeddedSignedCertificateTimestampList : NID;
  LoadFromDerString : string -> Cert;
  Cert_IsLoaded : Cert -> bool;
  HasExtension : Cert -> NID -> Cert_Status;
  DerEncoding : Cert -> option string;
  SPKISha256Digest : Cert -> option string;
  (** the constructor [TbsCertificate(const Cert&)] *)
  TbsCertificate_of : Cert -> TbsCertificate;
  Tbs_IsLoaded : TbsCertificate -> bool;
  Tbs_DeleteExtension : TbsCertificate -> NID -> option TbsCertificate;
  Tbs_DerEncoding : TbsCertificate -> option string
}.

(** Helpers that are not part of the repository's sources: base64 decoding
    and the CT v1 serializers. *)
Class Codec : Type := {
  FromBase64 : string -> string;
  SerializeForLeaf : LoggedCertificate -> option string;
  SerializeExtraData : LoggedCertificate -> option string;
  SerializeSCT : SignedCertificateTimestamp -> option string
}.

(** What the C library leaves to the implementation and [GetIntParam]
    depends on: whether [strtol] sets errno (to EINVAL) when no conversion
    could be performed.  POSIX allows both; glibc does not set it. *)
Class Libc : Type := {
  strtol_sets_errno_on_no_conversion : bool
}.

(** The command-line flags of server/handler.cc (gflags globals). *)
Class Flags : Set := {
  FLAGS_max_leaf_entries_per_response : Z;   (* int32 *)
  FLAGS_staleness_check_delay_secs : Z;      (* int32 *)
  FLAGS_accept_certificates : bool;
  FLAGS_accept_signed_data : bool
}.

Definition default_flags : Flags := {|
  FLAGS_max_leaf_entries_per_response := 1000;
  FLAGS_staleness_check_delay_secs := 5;
  FLAGS_accept_certificates := true;
  FLAGS_accept_signed_data := false
|}.

Section Model.

Context {backend : X509Backend} {codec : Codec} {libc : Libc} {FLAGS : Flags}.

(** *** CertChain

    Modelled from the spec: the class is declared in log/cert.h, which is not
    among the sources.  A chain is the ordered sequence leaf first; it is
    loaded iff it is non-empty; [LeafCert] and [CertAt] return NULL out of
    range.  A PreCertChain is a CertChain. *)
Definition CertChain : Type := list Cert.
Definition PreCertChain : Type := CertChain.

Definition IsLoaded (chain : CertChain) : bool :=
  match chain with [] => false | _ :: _ => true end.

Definition Length (chain : CertChain) : Z := Z.of_nat (length chain).

Definition LeafCert (chain : CertChain) : option Cert := head chain.

Definition CertAt (chain : CertChain) (position : nat) : option Cert :=
  chain !! position.

Definition AddCert (cert : Cert) (chain : CertChain) : CertChain :=
  chain ++ [cert].

(** *** CertChecker (log/cert_checker.h), an external collaborator.

    The checks may rewrite the chain they are given.  [CheckPreCertChain]
    also receives the two strings it writes the issuer key hash and the TBS
    certificate into, and returns their contents afterwards. *)
Record CertChecker : Type := mkCertChecker {
  CheckCertChain : CertChain -> Status * CertChain;
  CheckPreCertChain :
    PreCertChain -> string -> string -> Status * PreCertChain * string * string;
  CheckSignedData : SignedData -> Status * SignedData;
  GetTrustedCertificates : list (string * Cert)
}.

(** *** Events *)

(** A closure handed to the thread pool. *)
Inductive Task : Type :=
| Task_ProxyRequest (request : evhttp_request)
| Task_BlockingAddChain (req : evhttp_request) (chain : CertChain)
| Task_BlockingAddPreChain (req : evhttp_request) (chain : PreCertChain)
| Task_BlockingAddSignedData (req : evhttp_request) (data : SignedData).

Inductive Event : Type :=
| EvCheckCertChain (chain : CertChain)
| EvCheckPreCertChain (chain : PreCertChain)
| EvCheckSignedData (data : SignedData)
| EvQueueEntry (entry : LogEntry)
| EvSendError (req : evhttp_request) (code : Z) (msg : string)
| EvSendJsonReply (req : evhttp_request) (code : Z) (json : JsonValue)
| EvPoolAdd (task : Task)
| EvProxyRequest (request : evhttp_request)
| EvLatency (path : string).

(** A call into a collaborator: the call is recorded, its result returned. *)
Definition call {A} (e : Event) (r : A) : M Event A := ' _ <- tell e ; ret r.

(** ** CertSubmissionHandler (log/cert_submission_handler.cc) *)

Definition NID_sct : NID := NID_ctEmbeddedSignedCertificateTimestampList.

Definition SerializedTbs (cert : Cert) : option string :=
  if negb (Cert_IsLoaded cert) then None
  else
    let status := HasExtension cert NID_sct in
    if negb (Cert_Status_eqb status Cert_TRUE)
       && negb (Cert_Status_eqb status Cert_FALSE) then None
    else
      (* Delete the embedded proof. *)
      let tbs := TbsCertificate_of cert in
      if negb (Tbs_IsLoaded tbs) then None
      else
        let deleted :=
          if Cert_Status_eqb status Cert_TRUE
          then Tbs_DeleteExtension tbs NID_sct
          else Some tbs in
        match deleted with
        | None => None
        | Some tbs' => Tbs_DerEncoding tbs'
        end.

Definition X509ChainToEntry (chain : CertChain) (entry : LogEntry)
    : M Event (bool * LogEntry) :=
  if negb (IsLoaded chain) then ret (false, entry)
  else
    leaf <- deref (LeafCert chain) ;
    let status := HasExtension leaf NID_sct in
    if negb (Cert_Status_eqb status Cert_TRUE)
       && negb (Cert_Status_eqb status Cert_FALSE)
    then ret (false, entry)
    else if Cert_Status_eqb status Cert_TRUE then
      if Length chain <? 2 then
        (* need issuer *)
        ret (false, entry)
      else
        let entry := set_type PRECERT_ENTRY entry in
        issuer <- deref (CertAt chain 1) ;
        match SPKISha256Digest issuer with
        | None => ret (false, entry)
        | Some key_hash =>
            let entry :=
              mutable_precert_entry
                (mutable_pre_cert (set_issuer_key_hash key_hash)) entry in
            leaf <- deref (LeafCert chain) ;
            match SerializedTbs leaf with
            | None => ret (false, entry)
            | Some tbs =>
                ret (true,
                     mutable_precert_entry
                       (mutable_pre_cert (set_tbs_certificate tbs)) entry)
            end
        end
    else
      let entry := set_type X509_ENTRY entry in
      leaf <- deref (LeafCert chain) ;
      match DerEncoding leaf with
      | None => ret (false, entry)
      | Some der_cert =>
          ret (true, mutable_x509_entry (set_leaf_certificate der_cert) entry)
      end.

Definition ProcessSignedDataSubmission (cert_checker_ : CertChecker)
    (data : SignedData) (entry : LogEntry) : M Event (Status * LogEntry) :=
  '(status, data) <- call (EvCheckSignedData data)
                          (CheckSignedData cert_checker_ data) ;
  if negb (ok status) then ret (status, entry)
  else
    let entry := mutable_signed_data_entry (set_keyid (GetKeyId data)) entry in
    let entry := mutable_signed_data_entry (set_data (GetData data)) entry in
    let entry :=
      mutable_signed_data_entry (set_signature (GetSignature data)) entry in
    let entry := set_type SIGNED_DATA_ENTRY entry in
    ret (Status_OK, entry).

Definition could_not_DER_encode : Status :=
  mkStatus error.INTERNAL "could not DER-encode the chain".

(** The loop [for (i = 1; i < chain->Length(); ++i)] over the certificates
    after the leaf: each is DER-encoded and appended with [add]; the first
    failure leaves the loop with what was appended so far. *)
Fixpoint encode_issuers (add : string -> LogEntry -> LogEntry)
    (issuers : list Cert) (entry : LogEntry) : bool * LogEntry :=
  match issuers with
  | [] => (true, entry)
  | cert :: rest =>
      match DerEncoding cert with
      | None => (false, entry)
      | Some der_cert => encode_issuers add rest (add der_cert entry)
      end
  end.

Definition ProcessX509Submission (cert_checker_ : CertChecker)
    (chain : CertChain) (entry : LogEntry) : M Event (Status * LogEntry) :=
  if negb (IsLoaded chain)
  then ret (mkStatus error.INVALID_ARGUMENT "empty submission", entry)
  else
    '(status, chain) <- call (EvCheckCertChain chain)
                             (CheckCertChain cert_checker_ chain) ;
    if negb (ok status) then ret (status, entry)
    else
      (* We have a valid chain; make the entry. *)
      leaf <- deref (LeafCert chain) ;
      match DerEncoding leaf with
      | None => ret (could_not_DER_encode, entry)
      | Some der_cert =>
          let entry := mutable_x509_entry id entry in
          let entry :=
            mutable_x509_entry (set_leaf_certificate der_cert) entry in
          match encode_issuers
                  (fun der => mutable_x509_entry (add_certificate_chain der))
                  (drop 1 chain) entry with
          | (false, entry) => ret (could_not_DER_encode, entry)
          | (true, entry) => ret (Status_OK, set_type X509_ENTRY entry)
          end
      end.

Definition ProcessPreCertSubmission (cert_checker_ : CertChecker)
    (chain : PreCertChain) (entry : LogEntry) : M Event (Status * LogEntry) :=
  let entry := mutable_precert_entry id entry in
  let entry := mutable_precert_entry (mutable_pre_cert id) entry in
  let pc :=
    default PreCert_new
            (pre_cert (default PrecertChainEntry_new (precert_entry entry))) in
  (* mutable_issuer_key_hash() and mutable_tbs_certificate() set both fields *)
  let key_hash0 := default EmptyString (issuer_key_hash pc) in
  let tbs0 := default EmptyString (tbs_certificate pc) in
  '(status, chain, key_hash, tbs) <-
     call (EvCheckPreCertChain chain)
          (CheckPreCertChain cert_checker_ chain key_hash0 tbs0) ;
  let entry :=
    mutable_precert_entry
      (mutable_pre_cert (fun _ => mkPreCert (Some key_hash) (Some tbs)))
      entry in
  if negb (ok status) then ret (status, entry)
  else
    (* We have a valid chain; make the entry. *)
    leaf <- deref (LeafCert chain) ;
    match DerEncoding leaf with
    | None => ret (could_not_DER_encode, entry)
    | Some der_cert =>
        let entry :=
          mutable_precert_entry (set_pre_certificate der_cert) entry in
        match encode_issuers
                (fun der =>
                   mutable_precert_entry (add_precertificate_chain der))
                (drop 1 chain) entry with
        | (false, entry) => ret (could_not_DER_encode, entry)
        | (true, entry) => ret (Status_OK, set_type PRECERT_ENTRY entry)
        end
    end.

(** ** LoggedCertificate::CopyFromClientLogEntry (log/logged_certificate.cc) *)

Definition set_sct (f : SignedCertificateTimestamp -> SignedCertificateTimestamp)
    (c : LoggedCertificate) : LoggedCertificate :=
  mkLoggedCertificate (lc_sequence_number c) (lc_merkle_leaf_hash c)
                      (Some (f (lc_get_sct c))) (lc_entry c).

Definition set_entry (f : LogEntry -> LogEntry) (c : LoggedCertificate)
    : LoggedCertificate :=
  mkLoggedCertificate (lc_sequence_number c) (lc_merkle_leaf_hash c)
                      (lc_sct c) (Some (f (default LogEntry_new (lc_entry c)))).

Definition sct_set_version (v : Version) (s : SignedCertificateTimestamp) :=
  mkSCT (Some v) (sct_id_key_id s) (sct_timestamp s) (sct_extensions s)
        (sct_signature s).

Definition sct_set_timestamp (t : Z) (s : SignedCertificateTimestamp) :=
  mkSCT (sct_version s) (sct_id_key_id s) t (sct_extensions s)
        (sct_signature s).

Definition sct_set_extensions (x : string) (s : SignedCertificateTimestamp) :=
  mkSCT (sct_version s) (sct_id_key_id s) (sct_timestamp s) (Some x)
        (sct_signature s).

Definition CopyFromClientLogEntry (this : LoggedCertificate)
    (entry : AsyncLogClient_Entry) : M Event (bool * LoggedCertificate) :=
  let te := timestamped_entry (cl_leaf entry) in
  if negb (LogEntryType_eqb (te_entry_type te) X509_ENTRY)
     && negb (LogEntryType_eqb (te_entry_type te) PRECERT_ENTRY)
     && negb (LogEntryType_eqb (te_entry_type te) SIGNED_DATA_ENTRY)
  then ret (false, this)
  else
    let this := Clear this in
    let this := set_sct (sct_set_version V1) this in
    let this := set_sct (sct_set_timestamp (te_timestamp te)) this in
    let this := set_sct (sct_set_extensions (te_extensions te)) this in
    (* entry.entry is incomplete: what entry.leaf also holds is missing *)
    let this := set_entry (fun _ => cl_entry entry) this in
    let this := set_entry (set_type (te_entry_type te)) this in
    match get_type (default LogEntry_new (lc_entry this)) with
    | X509_ENTRY =>
        ret (true,
             set_entry
               (mutable_x509_entry
                  (set_leaf_certificate (se_x509 (te_signed_entry te))))
               this)
    | PRECERT_ENTRY =>
        let precert := se_precert (te_signed_entry te) in
        let this :=
          set_entry
            (mutable_precert_entry
               (mutable_pre_cert
                  (set_issuer_key_hash (leaf_issuer_key_hash precert))))
            this in
        ret (true,
             set_entry
               (mutable_precert_entry
                  (mutable_pre_cert
                     (set_tbs_certificate (leaf_tbs_certificate precert))))
               this)
    | SIGNED_DATA_ENTRY =>
        let data := se_data (te_signed_entry te) in
        let this :=
          set_entry (mutable_signed_data_entry (set_keyid (leaf_keyid data)))
                    this in
        ret (true,
             set_entry (mutable_signed_data_entry (set_data (leaf_data data)))
                       this)
    | UNKNOWN_ENTRY_TYPE => abort   (* LOG(FATAL) << "unknown entry type" *)
    end.

(** ** Query parameters (server/handler.cc, anonymous namespace) *)

(** A [std::multimap<string, string>] as the sequence of its elements in
    iteration order: sorted by key, equal keys in insertion order. *)
Definition multimap : Set := list (string * string).

Fixpoint multimap_insert (kv : string * string) (m : multimap) : multimap :=
  match m with
  | [] => [kv]
  | (k, v) :: rest =>
      if String.ltb (fst kv) k then kv :: m
      else (k, v) :: multimap_insert kv rest
  end.

(** [find]: an iterator is the rest of the sequence from the element it
    points to, [end()] the empty rest. *)
Fixpoint multimap_find (key : string) (m : multimap) : multimap :=
  match m with
  | [] => []
  | (k, v) :: rest =>
      if String.eqb k key then m else multimap_find key rest
  end.

Definition ParseQuery (req : evhttp_request) : multimap :=
  match req_query req with
  | Some keyval => fold_left (fun retval kv => multimap_insert kv retval) keyval []
  | None => []   (* an empty result in case of a parsing error *)
  end.

Definition GetParam (query : multimap) (param : string) (value : string)
    : bool * string :=
  match multimap_find param query with
  | [] => (false, value)
  | (_, possible_value) :: it =>
      (* Flag duplicate query parameters as invalid. *)
      let retval :=
        match it with
        | [] => true
        | (k, _) :: _ => negb (String.eqb k param)
        end in
      (retval, if retval then possible_value else value)
  end.

(** *** strtol(nptr, NULL, 10) of the C library, for a 64-bit [long]. *)

Definition LONG_MAX : Z := 2 ^ 63 - 1.
Definition LONG_MIN : Z := - 2 ^ 63.
Definition ERANGE : Z := 34.
Definition EINVAL : Z := 22.

Definition isspace (c : ascii) : bool :=
  let n := Z.of_N (N_of_ascii c) in
  (n =? 32) || ((9 <=? n) && (n <=? 13)).

Definition digit_of (c : ascii) : option Z :=
  let n := Z.of_N (N_of_ascii c) in
  if (48 <=? n) && (n <=? 57) then Some (n - 48) else None.

Fixpoint skip_spaces (s : string) : string :=
  match s with
  | String c rest => if isspace c then skip_spaces rest else s
  | EmptyString => s
  end.

(** The longest prefix of decimal digits: its value and whether it has at
    least one digit. *)
Fixpoint scan_digits (acc : Z) (any : bool) (s : string) : Z * bool :=
  match s with
  | String c rest =>
      match digit_of c with
      | Some d => scan_digits (10 * acc + d) true rest
      | None => (acc, any)
      end
  | EmptyString => (acc, any)
  end.

(** Returns the value and errno afterwards. *)
Definition strtol (nptr : string) (errno : Z) : Z * Z :=
  let s := skip_spaces nptr in
  let '(negative, s) :=
    match s with
    | String "-"%char rest => (true, rest)
    | String "+"%char rest => (false, rest)
    | _ => (false, s)
    end in
  let '(acc, any) := scan_digits 0 false s in
  if negb any then
    (0, if strtol_sets_errno_on_no_conversion then EINVAL else errno)
  else
    let v := if negative then - acc else acc in
    if v >? LONG_MAX then (LONG_MAX, ERANGE)
    else if v <? LONG_MIN then (LONG_MIN, ERANGE)
    else (v, errno).

(** Conversion of a [long] to [int]: the value modulo 2^32 in the signed
    range. *)
Definition long_to_int (n : Z) : Z := (n + 2 ^ 31) mod 2 ^ 32 - 2 ^ 31.

(** Returns -1 on error, and on success too if the parameter contains -1. *)
Definition GetIntParam (query : multimap) (param : string) : Z :=
  let retval := -1 in
  let '(found, value) := GetParam query param EmptyString in
  if found then
    let errno := 0 in
    let '(num, errno) := strtol value errno in
    let retval := long_to_int num in
    if negb (errno =? 0) || negb (retval =? num) then -1 else retval
  else retval.

Definition GetBoolParam (query : multimap) (param : string) : bool :=
  let '(found, value) := GetParam query param EmptyString in
  if found then String.eqb value "true" else false.

(** ** Request decoding and the reply to a submission *)

Definition SendError (req : evhttp_request) (code : Z) (msg : string)
    : M Event unit :=
  tell (EvSendError req code msg).

Definition SendJsonReply (req : evhttp_request) (code : Z)
    (json : list (string * JsonValue)) : M Event unit :=
  tell (EvSendJsonReply req code (J_object json)).

Definition Method_not_allowed : string := "Method not allowed.".
Definition Unable_to_parse_JSON : string := "Unable to parse provided JSON.".

Definition ExtractSignedData (req : evhttp_request) (data : SignedData)
    : M Event (bool * SignedData) :=
  if negb (is_POST (evhttp_request_get_command req)) then
    ' _ <- SendError req HTTP_BADMETHOD Method_not_allowed ;
    ret (false, data)
  else
    match req_body req with
    | Some (J_object json_body) =>
        match JsonString_field json_body "keyid" with
        | None =>
            ' _ <- SendError req HTTP_BADREQUEST Unable_to_parse_JSON ;
            ret (false, data)
        | Some json_keyid =>
            match JsonString_field json_body "signature" with
            | None =>
                ' _ <- SendError req HTTP_BADREQUEST Unable_to_parse_JSON ;
                ret (false, data)
            | Some json_signature =>
                match JsonString_field json_body "data" with
                | None =>
                    ' _ <- SendError req HTTP_BADREQUEST Unable_to_parse_JSON ;
                    ret (false, data)
                | Some json_data =>
                    ret (true,
                         mkSignedData (FromBase64 json_keyid)
                                      (FromBase64 json_data)
                                      (FromBase64 json_signature))
                end
            end
        end
    | _ =>
        ' _ <- SendError req HTTP_BADREQUEST Unable_to_parse_JSON ;
        ret (false, data)
    end.

(** The loop of [ExtractChain] over the elements of the "chain" array. *)
Fixpoint ExtractChain_loop (req : evhttp_request) (json_chain : list JsonValue)
    (chain : CertChain) : M Event (bool * CertChain) :=
  match json_chain with
  | [] => ret (true, chain)
  | J_string json_cert :: rest =>
      let cert := LoadFromDerString (FromBase64 json_cert) in
      if negb (Cert_IsLoaded cert) then
        ' _ <- SendError req HTTP_BADREQUEST "Unable to parse provided chain." ;
        ret (false, chain)
      else ExtractChain_loop req rest (AddCert cert chain)
  | _ :: _ =>
      ' _ <- SendError req HTTP_BADREQUEST Unable_to_parse_JSON ;
      ret (false, chain)
  end.

Definition ExtractChain (req : evhttp_request) (chain : CertChain)
    : M Event (bool * CertChain) :=
  if negb (is_POST (evhttp_request_get_command req)) then
    ' _ <- SendError req HTTP_BADMETHOD Method_not_allowed ;
    ret (false, chain)
  else
    match req_body req with
    | Some (J_object json_body) =>
        match JsonArray_field json_body "chain" with
        | None =>
            ' _ <- SendError req HTTP_BADREQUEST Unable_to_parse_JSON ;
            ret (false, chain)
        | Some json_chain => ExtractChain_loop req json_chain chain
        end
    | _ =>
        ' _ <- SendError req HTTP_BADREQUEST Unable_to_parse_JSON ;
        ret (false, chain)
    end.

(** The JSON body of a successful submission. *)
Definition sct_json (sct : SignedCertificateTimestamp)
    : list (string * JsonValue) :=
  let json_reply := [] in
  let json_reply := Json_Add "sct_version" (J_int 0) json_reply in
  let json_reply := Json_Add "id" (J_base64 (sct_id_key_id sct)) json_reply in
  let json_reply := Json_Add "timestamp" (J_int (sct_timestamp sct)) json_reply in
  let json_reply := Json_Add "extensions" (J_string EmptyString) json_reply in
  Json_Add "signature" (J_signature (sct_signature sct)) json_reply.

Definition AddChainReply (req : evhttp_request) (add_status : Status)
    (sct : SignedCertificateTimestamp) : M Event unit :=
  if negb (ok add_status)
     && negb (error.eqb (CanonicalCode add_status) error.ALREADY_EXISTS)
  then
    let response_code :=
      if error.eqb (CanonicalCode add_status) error.RESOURCE_EXHAUSTED
      then HTTP_SERVUNAVAIL else HTTP_BADREQUEST in
    SendError req response_code (error_message add_status)
  else SendJsonReply req HTTP_OK (sct_json sct).

(** ** The collaborators of the HTTP handler *)

(** Modelled from the spec: log/frontend.h is not among the sources.  On the
    write path a submission goes through the submission handler and the chain
    validator, and an accepted entry on to the signing queue, which answers
    with a status and the SCT; a validation error is reported to the client
    as it is.  [frontend_queue] is the signing queue (external). *)
Record Frontend : Type := mkFrontend {
  frontend_cert_checker : CertChecker;
  frontend_queue :
    LogEntry -> SignedCertificateTimestamp -> Status * SignedCertificateTimestamp
}.

Definition QueueProcessedEntry (frontend : Frontend)
    (pre_result : Status * LogEntry) (sct : SignedCertificateTimestamp)
    : M Event (Status * SignedCertificateTimestamp) :=
  let '(status, entry) := pre_result in
  if negb (ok status) then ret (status, sct)
  else call (EvQueueEntry entry) (frontend_queue frontend entry sct).

Definition QueueX509Entry (frontend : Frontend) (chain : CertChain)
    (sct : SignedCertificateTimestamp) :=
  pre <- ProcessX509Submission (frontend_cert_checker frontend) chain
                               LogEntry_new ;
  QueueProcessedEntry frontend pre sct.

Definition QueuePreCertEntry (frontend : Frontend) (chain : PreCertChain)
    (sct : SignedCertificateTimestamp) :=
  pre <- ProcessPreCertSubmission (frontend_cert_checker frontend) chain
                                  LogEntry_new ;
  QueueProcessedEntry frontend pre sct.

Definition QueueSignedDataEntry (frontend : Frontend) (data : SignedData)
    (sct : SignedCertificateTimestamp) :=
  pre <- ProcessSignedDataSubmission (frontend_cert_checker frontend) data
                                     LogEntry_new ;
  QueueProcessedEntry frontend pre sct.

(** LogLookup and the read-only database, external collaborators.  A scan
    iterator is the sequence of entries it will yield. *)
Record LogLookup : Set := mkLogLookup {
  lookup_GetSTH : SignedTreeHead;
  AuditProof : string -> Z -> option ShortMerkleAuditProof;
  ConsistencyProof : Z -> Z -> list string
}.

Record ReadOnlyDatabase : Set := mkDatabase {
  ScanEntries : Z -> list LoggedCertificate
}.

(** ** HttpHandler (server/handler.h) *)

Record HttpHandler : Type := mkHttpHandler {
  log_lookup_ : LogLookup;
  db_ : ReadOnlyDatabase;
  cert_checker_ : option CertChecker;
  frontend_ : option Frontend;
  node_is_stale_ : bool
}.

(** A handler registered with the HTTP server.  The closures of the source
    capture [this]; the callback receives the handler object as it is when
    the request arrives. *)
Definition HandlerCallback : Type :=
  HttpHandler -> evhttp_request -> M Event unit.

Definition IsNodeStale (this : HttpHandler) : bool := node_is_stale_ this.

(** One tick of the staleness monitor: [active] is [task_.task()->IsActive()],
    [node_is_stale] the controller's answer. *)
Definition UpdateNodeStaleness (active : bool) (node_is_stale : bool)
    (this : HttpHandler) : HttpHandler :=
  if negb active then this
  else mkHttpHandler (log_lookup_ this) (db_ this) (cert_checker_ this)
                     (frontend_ this) node_is_stale.

Definition StatsHandlerInterceptor (path : string) (cb : HandlerCallback)
    : HandlerCallback :=
  fun this req =>
    (* the latency is recorded when the scope is left *)
    ' _ <- cb this req ;
    tell (EvLatency path).

Definition ProxyInterceptor (local_handler : HandlerCallback) : HandlerCallback :=
  fun this request =>
    if IsNodeStale this then
      (* Can't do this on the libevent thread *)
      tell (EvPoolAdd (Task_ProxyRequest request))
    else local_handler this request.

(** libevent::HttpServer: the table of registered paths.  [AddHandler] fails
    when the path is taken. *)
Definition AddHandler (path : string) (cb : HandlerCallback)
    (server : gmap string HandlerCallback) : bool * gmap string HandlerCallback :=
  match server !! path with
  | Some _ => (false, server)
  | None => (true, <[path := cb]> server)
  end.

Definition AddProxyWrappedHandler (server : gmap string HandlerCallback)
    (path : string) (local_handler : HandlerCallback)
    : M Event (gmap string HandlerCallback) :=
  let stats_handler := StatsHandlerInterceptor path local_handler in
  let '(added, server) :=
    AddHandler path (ProxyInterceptor stats_handler) server in
  ' _ <- CHECK added ;
  ret server.

(** *** Read endpoints *)

Definition dquote : string := String (ascii_of_nat 34) EmptyString.

Definition Missing_or_invalid (param : string) : string :=
  "Missing or invalid " +:+ dquote +:+ param +:+ dquote +:+ " parameter.".

(** The scan loop [for (i = start; i <= end; ++i)] of [BlockingGetEntries],
    over the sequence numbers still to visit; [it] is the scan iterator.
    [None]: an entry failed to serialize. *)
Fixpoint scan_loop (indices : list Z) (it : list LoggedCertificate)
    (include_scts : bool) (json_entries : list JsonValue)
    : option (list JsonValue) :=
  match indices with
  | [] => Some json_entries
  | i :: indices' =>
      match it with
      | [] => Some json_entries                       (* !GetNextEntry: break *)
      | cert :: it' =>
          if negb (sequence_number cert =? i) then Some json_entries
          else
            match SerializeForLeaf cert, SerializeExtraData cert,
                  (if include_scts then SerializeSCT (lc_get_sct cert)
                   else Some EmptyString) with
            | Some leaf_input, Some extra_data, Some sct_data =>
                let json_entry := [] in
                let json_entry :=
                  Json_Add "leaf_input" (J_base64 leaf_input) json_entry in
                let json_entry :=
                  Json_Add "extra_data" (J_base64 extra_data) json_entry in
                let json_entry :=
                  if include_scts
                  then Json_Add "sct" (J_base64 sct_data) json_entry
                  else json_entry in
                scan_loop indices' it' include_scts
                          (json_entries ++ [J_object json_entry])
            | _, _, _ => None
            end
      end
  end.

Definition BlockingGetEntries (this : HttpHandler) (req : evhttp_request)
    (start end_ : Z) (include_scts : bool) : M Event unit :=
  let it := ScanEntries (db_ this) start in
  match scan_loop (seqZ start (end_ - start + 1)) it include_scts [] with
  | None => SendError req HTTP_INTERNAL "Serialization failed."
  | Some json_entries =>
      if Z.of_nat (length json_entries) <? 1 then
        SendError req HTTP_BADREQUEST "Entry not found."
      else
        SendJsonReply req HTTP_OK (Json_Add "entries" (J_array json_entries) [])
  end.

Definition GetEntries : HandlerCallback := fun this req =>
  if negb (is_GET (evhttp_request_get_command req)) then
    SendError req HTTP_BADMETHOD Method_not_allowed
  else
    let query := ParseQuery req in
    let start := GetIntParam query "start" in
    if start <? 0 then
      SendError req HTTP_BADREQUEST (Missing_or_invalid "start")
    else
      let end_ := GetIntParam query "end" in
      if end_ <? start then
        SendError req HTTP_BADREQUEST (Missing_or_invalid "end")
      else
        (* Limit the number of entries returned in a single request. *)
        let end_ := Z.min end_ (start + FLAGS_max_leaf_entries_per_response) in
        let include_scts := GetBoolParam query "include_scts" in
        BlockingGetEntries this req start end_ include_scts.

(** The loop of [GetRoots]: [None] when a certificate fails to encode. *)
Fixpoint encode_roots (trusted : list (string * Cert)) (roots : list JsonValue)
    : option (list JsonValue) :=
  match trusted with
  | [] => Some roots
  | (_, cert) :: rest =>
      match DerEncoding cert with
      | None => None
      | Some der => encode_roots rest (roots ++ [J_base64 der])
      end
  end.

Definition GetRoots : HandlerCallback := fun this req =>
  if negb (is_GET (evhttp_request_get_command req)) then
    SendError req HTTP_BADMETHOD Method_not_allowed
  else
    checker <- deref (cert_checker_ this) ;
    match encode_roots (GetTrustedCertificates checker) [] with
    | None => SendError req HTTP_INTERNAL "Serialisation failed."
    | Some roots =>
        SendJsonReply req HTTP_OK (Json_Add "certificates" (J_array roots) [])
    end.

Definition GetProof : HandlerCallback := fun this req =>
  if negb (is_GET (evhttp_request_get_command req)) then
    SendError req HTTP_BADMETHOD Method_not_allowed
  else
    let query := ParseQuery req in
    let '(found, b64_hash) := GetParam query "hash" EmptyString in
    if negb found then
      SendError req HTTP_BADREQUEST (Missing_or_invalid "hash")
    else
      let hash := FromBase64 b64_hash in
      if String.eqb hash EmptyString then
        SendError req HTTP_BADREQUEST
                  ("Invalid " +:+ dquote +:+ "hash" +:+ dquote +:+ " parameter.")
      else
        let tree_size := GetIntParam query "tree_size" in
        if (tree_size <? 0)
           || (tree_size >? sth_tree_size (lookup_GetSTH (log_lookup_ this)))
        then SendError req HTTP_BADREQUEST (Missing_or_invalid "tree_size")
        else
          match AuditProof (log_lookup_ this) hash tree_size with
          | None => SendError req HTTP_BADREQUEST "Couldn't find hash."
          | Some proof =>
              let json_audit := map J_base64 (proof_path_node proof) in
              let json_reply :=
                Json_Add "leaf_index" (J_int (proof_leaf_index proof)) [] in
              let json_reply :=
                Json_Add "audit_path" (J_array json_audit) json_reply in
              SendJsonReply req HTTP_OK json_reply
          end.

Definition GetSTH : HandlerCallback := fun this req =>
  if negb (is_GET (evhttp_request_get_command req)) then
    SendError req HTTP_BADMETHOD Method_not_allowed
  else
    let sth := lookup_GetSTH (log_lookup_ this) in
    let json_reply := Json_Add "tree_size" (J_int (sth_tree_size sth)) [] in
    let json_reply :=
      Json_Add "timestamp" (J_int (sth_timestamp sth)) json_reply in
    let json_reply :=
      Json_Add "sha256_root_hash" (J_base64 (sth_sha256_root_hash sth))
               json_reply in
    let json_reply :=
      Json_Add "tree_head_signature" (J_signature (sth_signature sth))
               json_reply in
    SendJsonReply req HTTP_OK json_reply.

Definition GetConsistency : HandlerCallback := fun this req =>
  if negb (is_GET (evhttp_request_get_command req)) then
    SendError req HTTP_BADMETHOD Method_not_allowed
  else
    let query := ParseQuery req in
    let first := GetIntParam query "first" in
    if first <? 0 then
      SendError req HTTP_BADREQUEST (Missing_or_invalid "first")
    else
      let second := GetIntParam query "second" in
      if second <? first then
        SendError req HTTP_BADREQUEST (Missing_or_invalid "second")
      else
        let consistency := ConsistencyProof (log_lookup_ this) first second in
        let json_cons := map J_base64 consistency in
        SendJsonReply req HTTP_OK
                      (Json_Add "consistency" (J_array json_cons) []).

(** *** Write endpoints *)

Definition SignedData_new : SignedData :=
  mkSignedData EmptyString EmptyString EmptyString.

Definition AddSignedData : HandlerCallback := fun this req =>
  '(extracted, data) <- ExtractSignedData req SignedData_new ;
  if negb extracted then ret tt
  else tell (EvPoolAdd (Task_BlockingAddSignedData req data)).

Definition AddChain : HandlerCallback := fun this req =>
  '(extracted, chain) <- ExtractChain req [] ;
  if negb extracted then ret tt
  else tell (EvPoolAdd (Task_BlockingAddChain req chain)).

Definition AddPreChain : HandlerCallback := fun this req =>
  '(extracted, chain) <- ExtractChain req [] ;
  if negb extracted then ret tt
  else tell (EvPoolAdd (Task_BlockingAddPreChain req chain)).

Definition BlockingAddSignedData (this : HttpHandler) (req : evhttp_request)
    (data : SignedData) : M Event unit :=
  frontend <- deref (frontend_ this) ;
  '(add_status, sct) <-
     QueueSignedDataEntry frontend data SignedCertificateTimestamp_new ;
  AddChainReply req add_status sct.

Definition BlockingAddChain (this : HttpHandler) (req : evhttp_request)
    (chain : CertChain) : M Event unit :=
  frontend <- deref (frontend_ this) ;
  '(add_status, sct) <-
     QueueX509Entry frontend chain SignedCertificateTimestamp_new ;
  AddChainReply req add_status sct.

Definition BlockingAddPreChain (this : HttpHandler) (req : evhttp_request)
    (chain : PreCertChain) : M Event unit :=
  frontend <- deref (frontend_ this) ;
  '(add_status, sct) <-
     QueuePreCertEntry frontend chain SignedCertificateTimestamp_new ;
  AddChainReply req add_status sct.

(** What the thread pool does with a task once a worker picks it up.
    [Proxy::ProxyRequest] is external: forwarding is recorded as an event. *)
Definition run_task (this : HttpHandler) (task : Task) : M Event unit :=
  match task with
  | Task_ProxyRequest request => tell (EvProxyRequest request)
  | Task_BlockingAddChain req chain => BlockingAddChain this req chain
  | Task_BlockingAddPreChain req chain => BlockingAddPreChain this req chain
  | Task_BlockingAddSignedData req data => BlockingAddSignedData this req data
  end.

(** *** Registration *)

Definition is_Some_b {A} (o : option A) : bool :=
  match o with Some _ => true | None => false end.

Definition Add (this : HttpHandler) (server : gmap string HandlerCallback)
    : M Event (gmap string HandlerCallback) :=
  server <- AddProxyWrappedHandler server "/ct/v1/get-entries" GetEntries ;
  server <-
    (if is_Some_b (cert_checker_ this)
     then AddProxyWrappedHandler server "/ct/v1/get-roots" GetRoots
     else ret server) ;
  server <- AddProxyWrappedHandler server "/ct/v1/get-proof-by-hash" GetProof ;
  server <- AddProxyWrappedHandler server "/ct/v1/get-sth" GetSTH ;
  server <-
    AddProxyWrappedHandler server "/ct/v1/get-sth-consistency" GetConsistency ;
  if is_Some_b (frontend_ this) then
    server <-
      (if FLAGS_accept_certificates then
         server <- AddProxyWrappedHandler server "/ct/v1/add-chain" AddChain ;
         AddProxyWrappedHandler server "/ct/v1/add-pre-chain" AddPreChain
       else ret server) ;
    if FLAGS_accept_signed_data then
      AddProxyWrappedHandler server "/ct/v1/add-signed-data" AddSignedData
    else ret server
  else ret server.



(** ** Notions used to state properties of the query multimap *)

(** The invariant of a [std::multimap]: no element has a key smaller than
    the key of an element before it. *)
Fixpoint sorted_by_key (m : multimap) : Prop :=
  match m with
  | [] => True
  | kv :: rest =>
      Forall (fun kv' => String.ltb (fst kv') (fst kv) = false) rest
      /\ sorted_by_key rest
  end.

(** The pairs of a sequence that carry the key [param], in order. *)
Definition with_key (param : string) (kvs : list (string * string))
    : list (string * string) :=
  filter (fun kv => fst kv = param) kvs.

(** ** Notions used to state properties of the handlers *)

(** [m] runs to the end and its only effect is one reply to [req]: an error
    with one of the codes [codes], or 200 with a JSON body. *)
Definition replies_once (req : evhttp_request) (codes : list Z)
    (m : M Event unit) : Prop :=
  exists e,
    m = Some (tt, [e])
    /\ ((exists code msg, e = EvSendError req code msg /\ In code codes)
        \/ exists json, e = EvSendJsonReply req 200 (J_object json)).

(** The record of a get-entries response for the stored entry [cert]: all
    serializations asked for succeed, and the record is the JSON object
    with the fields leaf_input and extra_data, followed by the field sct
    exactly when SCTs were asked for, each holding the serialization. *)
Definition entry_record (include_scts : bool) (cert : LoggedCertificate)
    (record : JsonValue) : Prop :=
  exists leaf_input extra_data,
    SerializeForLeaf cert = Some leaf_input
    /\ SerializeExtraData cert = Some extra_data
    /\ if include_scts then
         exists sct_data,
           SerializeSCT (lc_get_sct cert) = Some sct_data
           /\ record = J_object [("leaf_input", J_base64 leaf_input);
                                 ("extra_data", J_base64 extra_data);
                                 ("sct", J_base64 sct_data)]
       else
         record = J_object [("leaf_input", J_base64 leaf_input);
                            ("extra_data", J_base64 extra_data)].

(** The getter chain [entry.precert_entry().pre_cert()] of a const entry. *)
Definition get_pre_cert (e : LogEntry) : PreCert :=
  default PreCert_new
          (pre_cert (default PrecertChainEntry_new (precert_entry e))).

(** The certificate a chain element of an add-chain body decodes to. *)
Definition decode_cert (json_cert : string) : Cert :=
  LoadFromDerString (FromBase64 json_cert).

(** The endpoints of the design document (section 6) with the condition
    under which each is available (section 4.5), to compare [Add] with. *)
Definition endpoint_table (this : HttpHandler)
    : list (string * option HandlerCallback) :=
  let certs := is_Some_b (frontend_ this) && FLAGS_accept_certificates in
  let signed := is_Some_b (frontend_ this) && FLAGS_accept_signed_data in
  [ ("/ct/v1/get-entries", Some GetEntries);
    ("/ct/v1/get-roots",
     if is_Some_b (cert_checker_ this) then Some GetRoots else None);
    ("/ct/v1/get-proof-by-hash", Some GetProof);
    ("/ct/v1/get-sth", Some GetSTH);
    ("/ct/v1/get-sth-consistency", Some GetConsistency);
    ("/ct/v1/add-chain", if certs then Some AddChain else None);
    ("/ct/v1/add-pre-chain", if certs then Some AddPreChain else None);
    ("/ct/v1/add-signed-data", if signed then Some AddSignedData else None) ].

(** Every registered callback is a local handler under the latency observer
    under the proxy interceptor. *)
Definition wrapped (server : gmap string HandlerCallback) : Prop :=
  forall path cb,
    server !! path = Some cb ->
    exists local_handler,
      cb = ProxyInterceptor (StatsHandlerInterceptor path local_handler).


End Model.

(** ** A small concrete instance

    A toy certificate library and toy collaborators, to run the model on. *)

Module Fixture.

Record cert : Set := mkCert {
  c_name : string;            (* stands for the DER bytes *)
  c_spki_hash : string;
  c_embedded_sct : Cert_Status
}.

Record tbs : Set := mkTbs {
  t_name : string;
  t_embedded_sct : bool
}.

Definition backend : X509Backend := {|
  Cert := cert;
  TbsCertificate := tbs;
  NID_ctEmbeddedSignedCertificateTimestampList := 951;
  LoadFromDerString := fun der => mkCert der ("spki:" +:+ der) Cert_FALSE;
  Cert_IsLoaded := fun c => negb (String.eqb (c_name c) EmptyString);
  HasExtension := fun c nid =>
    if nid =? 951 then c_embedded_sct c else Cert_FALSE;
  DerEncoding := fun c => Some ("der:" +:+ c_name c);
  SPKISha256Digest := fun c => Some (c_spki_hash c);
  TbsCertificate_of := fun c =>
    mkTbs (c_name c) (Cert_Status_eqb (c_embedded_sct c) Cert_TRUE);
  Tbs_IsLoaded := fun _ => true;
  Tbs_DeleteExtension := fun t _ => Some (mkTbs (t_name t) false);
  Tbs_DerEncoding := fun t =>
    Some ("tbs:" +:+ t_name t +:+ (if t_embedded_sct t then "+sct" else EmptyString))
|}.

Definition codec : Codec := {|
  FromBase64 := fun s => s;
  SerializeForLeaf := fun _ => Some "leaf";
  SerializeExtraData := fun _ => Some "extra";
  SerializeSCT := fun _ => Some "sct"
|}.

(** glibc: no errno on a string without digits. *)
Definition glibc : Libc := {| strtol_sets_errno_on_no_conversion := false |}.

Definition leaf : @Cert backend := mkCert "leaf" "hash-of-leaf-key" Cert_FALSE.
Definition leaf_with_sct : @Cert backend := mkCert "leaf" "hash-of-leaf-key" Cert_TRUE.
Definition leaf_undetermined : @Cert backend :=
  mkCert "leaf" "hash-of-leaf-key" Cert_ERROR.
Definition issuer : @Cert backend := mkCert "issuer" "hash-of-issuer-key" Cert_FALSE.

Definition unauthenticated : Status :=
  mkStatus error.UNAUTHENTICATED "bad signature".

(** A checker that accepts everything and leaves its arguments alone. *)
Definition accepting : @CertChecker backend := {|
  CheckCertChain := fun chain => (Status_OK, chain);
  CheckPreCertChain := fun chain _ _ =>
    (Status_OK, chain, "hash-of-issuer-key", "tbs:leaf");
  CheckSignedData := fun data => (Status_OK, data);
  GetTrustedCertificates := [("issuer", issuer)]
|}.

(** A checker that rejects everything. *)
Definition rejecting : @CertChecker backend := {|
  CheckCertChain := fun chain => (unauthenticated, chain);
  CheckPreCertChain := fun chain h t => (unauthenticated, chain, h, t);
  CheckSignedData := fun data => (unauthenticated, data);
  GetTrustedCertificates := []
|}.

Definition sct : SignedCertificateTimestamp :=
  mkSCT (Some V1) "log-id" 1400000000000 None "signature".

Definition frontend : @Frontend backend := {|
  frontend_cert_checker := accepting;
  frontend_queue := fun _ _ => (Status_OK, sct)
|}.

Definition lookup : LogLookup := {|
  lookup_GetSTH := mkSTH 1001 1400000000000 "root" "sth-signature";
  AuditProof := fun _ _ => None;
  ConsistencyProof := fun _ _ => []
|}.

(** A database holding the entries with sequence numbers 0 .. size-1. *)
Definition database (size : Z) : ReadOnlyDatabase := {|
  ScanEntries := fun start =>
    map (fun i => mkLoggedCertificate (Some i) None None None)
        (seqZ start (size - start))
|}.

Definition handler (size : Z) (stale : bool) : @HttpHandler backend := {|
  log_lookup_ := lookup;
  db_ := database size;
  cert_checker_ := Some accepting;
  frontend_ := Some frontend;
  node_is_stale_ := stale
|}.

Definition get (query : list (string * string)) : evhttp_request :=
  mkRequest EVHTTP_REQ_GET (Some query) None.

Definition post (body : JsonValue) : evhttp_request :=
  mkRequest EVHTTP_REQ_POST (Some []) (Some body).

Definition signed_data : SignedData := mkSignedData "key" "payload" "sig".

Definition unknown_leaf : AsyncLogClient_Entry :=
  mkClientEntry
    (mkMerkleTreeLeaf
       (mkTimestampedEntry 7 UNKNOWN_ENTRY_TYPE
          (mkSignedEntry "x" (mkPreCertLeaf "h" "t") (mkSignedDataLeaf "k" "d"))
          EmptyString))
    LogEntry_new.

Definition stored : LoggedCertificate :=
  mkLoggedCertificate (Some 3) (Some "leaf-hash") (Some sct)
                      (Some (set_type X509_ENTRY LogEntry_new)).

End Fixture.

(** ** A second concrete instance, with failures

    A certificate library in which the certificate named "broken" does not
    DER-encode, and a log lookup that knows one audit proof. *)

Module MoreFixture.

Definition backend : X509Backend := {|
  Cert := Fixture.cert;
  TbsCertificate := Fixture.tbs;
  NID_ctEmbeddedSignedCertificateTimestampList := 951;
  LoadFromDerString := fun der =>
    Fixture.mkCert der ("spki:" +:+ der) Cert_FALSE;
  Cert_IsLoaded := fun c => negb (String.eqb (Fixture.c_name c) EmptyString);
  HasExtension := fun c nid =>
    if nid =? 951 then Fixture.c_embedded_sct c else Cert_FALSE;
  DerEncoding := fun c =>
    if String.eqb (Fixture.c_name c) "broken" then None
    else Some ("der:" +:+ Fixture.c_name c);
  SPKISha256Digest := fun c => Some (Fixture.c_spki_hash c);
  TbsCertificate_of := fun c =>
    Fixture.mkTbs (Fixture.c_name c)
                  (Cert_Status_eqb (Fixture.c_embedded_sct c) Cert_TRUE);
  Tbs_IsLoaded := fun _ => true;
  Tbs_DeleteExtension := fun t _ => Some (Fixture.mkTbs (Fixture.t_name t) false);
  Tbs_DerEncoding := fun t =>
    Some ("tbs:" +:+ Fixture.t_name t
          +:+ (if Fixture.t_embedded_sct t then "+sct" else EmptyString))
|}.

Definition leaf : @Cert backend := Fixture.mkCert "leaf" "hash-of-leaf-key" Cert_FALSE.
Definition broken : @Cert backend := Fixture.mkCert "broken" "hash-of-key" Cert_FALSE.

Definition accepting : @CertChecker backend := {|
  CheckCertChain := fun chain => (Status_OK, chain);
  CheckPreCertChain := fun chain _ _ =>
    (Status_OK, chain, "hash-of-issuer-key", "tbs:leaf");
  CheckSignedData := fun data => (Status_OK, data);
  GetTrustedCertificates := [("leaf", leaf)]
|}.

Definition rejecting : @CertChecker backend := {|
  CheckCertChain := fun chain => (Fixture.unauthenticated, chain);
  CheckPreCertChain := fun chain _ _ =>
    (Fixture.unauthenticated, chain, "partial-hash", "partial-tbs");
  CheckSignedData := fun data => (Fixture.unauthenticated, data);
  GetTrustedCertificates := []
|}.

Definition lookup : LogLookup := {|
  lookup_GetSTH := mkSTH 8 1400000000000 "root" "sth-signature";
  AuditProof := fun hash tree_size =>
    if String.eqb hash "leaf-hash" && (tree_size =? 8)
    then Some (mkProof 5 ["node-a"; "node-b"; "node-c"])
    else None;
  ConsistencyProof := fun _ _ => []
|}.

Definition handler : @HttpHandler backend := {|
  log_lookup_ := lookup;
  db_ := Fixture.database 8;
  cert_checker_ := Some accepting;
  frontend_ := None;
  node_is_stale_ := false
|}.

Definition x509_leaf : AsyncLogClient_Entry :=
  mkClientEntry
    (mkMerkleTreeLeaf
       (mkTimestampedEntry 7 X509_ENTRY
          (mkSignedEntry "leaf-der" (mkPreCertLeaf "h" "t")
                         (mkSignedDataLeaf "k" "d"))
          "ext"))
    (mkLogEntry None (Some (mkX509ChainEntry None ["issuer-der"])) None None).

End MoreFixture.

(** * Properties *)

Section Properties.

Context {backend : X509Backend} {codec : Codec} {libc : Libc} {FLAGS : Flags}.

(** ** The effect monad *)

Lemma bind_ret {E A B} (a : A) (k : A -> M E B) : bind (ret a) k = k a.
Proof.
  unfold bind, ret. destruct (k a) as [[b t]|]; reflexivity.
Qed.

Lemma bind_tell {E B} (e : E) (k : unit -> M E B) (b : B) (t : list E) :
  k tt = Some (b, t) -> bind (tell e) k = Some (b, e :: t).
Proof.
  intros Hk. unfold bind, tell. rewrite Hk. reflexivity.
Qed.

Lemma bind_Some {E A B} (m : M E A) (k : A -> M E B) (b : B) (t : list E) :
  bind m k = Some (b, t) ->
  exists a t1 t2, m = Some (a, t1) /\ k a = Some (b, t2) /\ t = t1 ++ t2.
Proof.
  unfold bind. destruct m as [[a t1]|]; [|discriminate].
  destruct (k a) as [[b' t2]|] eqn:Hk; [|discriminate].
  intros [= <- <-]. exists a, t1, t2. auto.
Qed.

Lemma call_eq {A} (e : Event) (r : A) : call e r = Some (r, [e]).
Proof. reflexivity. Qed.

(** ** The reply to a submission *)




(** ** The submission handler *)

(** C9.  When the signature check fails, [ProcessSignedDataSubmission]
    returns the checker's status and the log entry exactly as it was handed
    in; the only effect is the call of the checker. *)
Theorem ProcessSignedDataSubmission_check_fails
    (cert_checker : CertChecker) (data : SignedData) (entry : LogEntry) :
  ok (fst (CheckSignedData cert_checker data)) = false ->
  ProcessSignedDataSubmission cert_checker data entry
  = Some ((fst (CheckSignedData cert_checker data), entry),
          [EvCheckSignedData data]).
Proof.
  intros Hfail. unfold ProcessSignedDataSubmission.
  rewrite call_eq. destruct (CheckSignedData cert_checker data) as [status data'].
  cbn in Hfail |- *. rewrite Hfail. reflexivity.
Qed.

(** C6.  For a chain that is not loaded (empty), [ProcessX509Submission]
    returns invalid_argument "empty submission", leaves the entry alone and
    does not call the chain checker; [AddChainReply] answers that status with
    400 and its message, and so does the worker task of add-chain; an
    add-chain request whose "chain" array is empty does hand the empty chain
    to that task. *)
Theorem ProcessX509Submission_empty_chain
    (cert_checker : CertChecker) (chain : CertChain) (entry : LogEntry) :
  IsLoaded chain = false ->
  ProcessX509Submission cert_checker chain entry
  = Some ((mkStatus error.INVALID_ARGUMENT "empty submission", entry), [])
  /\ (forall req sct,
        AddChainReply req (mkStatus error.INVALID_ARGUMENT "empty submission")
                      sct
        = Some (tt, [EvSendError req HTTP_BADREQUEST "empty submission"]))
  /\ (forall this frontend req,
        frontend_ this = Some frontend ->
        BlockingAddChain this req chain
        = Some (tt, [EvSendError req HTTP_BADREQUEST "empty submission"]))
  /\ (forall this query other_fields,
        AddChain this
          (mkRequest EVHTTP_REQ_POST query
             (Some (J_object (("chain", J_array []) :: other_fields))))
        = Some (tt,
                [EvPoolAdd
                   (Task_BlockingAddChain
                      (mkRequest EVHTTP_REQ_POST query
                         (Some (J_object (("chain", J_array []) :: other_fields))))
                      [])])).
Proof.
  intros Hempty. unfold ProcessX509Submission. rewrite Hempty. cbn [negb].
  split; [reflexivity|]. split; [reflexivity|]. split.
  - intros this frontend req Hfe. unfold BlockingAddChain, QueueX509Entry.
    rewrite Hfe. unfold ProcessX509Submission. rewrite Hempty. reflexivity.
  - intros this query other. reflexivity.
Qed.

(** ** Entries fetched from another log *)

(** C10.  For a client entry whose leaf type is none of X509_ENTRY,
    PRECERT_ENTRY and SIGNED_DATA_ENTRY, [CopyFromClientLogEntry] returns
    false and the logged certificate is what it was before the call. *)
Theorem CopyFromClientLogEntry_unsupported_type
    (this : LoggedCertificate) (entry : AsyncLogClient_Entry) :
  te_entry_type (timestamped_entry (cl_leaf entry)) <> X509_ENTRY ->
  te_entry_type (timestamped_entry (cl_leaf entry)) <> PRECERT_ENTRY ->
  te_entry_type (timestamped_entry (cl_leaf entry)) <> SIGNED_DATA_ENTRY ->
  CopyFromClientLogEntry this entry = Some ((false, this), []).
Proof.
  intros Hx Hp Hs. unfold CopyFromClientLogEntry.
  destruct (te_entry_type (timestamped_entry (cl_leaf entry)));
    try congruence; reflexivity.
Qed.

(** For a supported type the object is cleared first: the result does not
    depend on what it held, and the call returns true. *)
Lemma CopyFromClientLogEntry_supported_type
    (this : LoggedCertificate) (entry : AsyncLogClient_Entry) :
  te_entry_type (timestamped_entry (cl_leaf entry)) <> UNKNOWN_ENTRY_TYPE ->
  exists copied,
    CopyFromClientLogEntry this entry = Some ((true, copied), [])
    /\ CopyFromClientLogEntry LoggedCertificate_new entry
       = Some ((true, copied), [])
    /\ type (default LogEntry_new (lc_entry copied))
       = Some (te_entry_type (timestamped_entry (cl_leaf entry))).
Proof.
  intros Hsup. unfold CopyFromClientLogEntry.
  destruct (te_entry_type (timestamped_entry (cl_leaf entry)));
    try congruence; cbn; eexists; repeat split.
Qed.

(** ** Variant discipline of the three entry points *)


Lemma fold_add_certificate_chain (ders : list string) :
  forall t x p s,
    fold_left (fun e d => mutable_x509_entry (add_certificate_chain d) e) ders
              (mkLogEntry t (Some x) p s)
    = mkLogEntry t
        (Some (mkX509ChainEntry (leaf_certificate x) (certificate_chain x ++ ders)))
        p s.
Proof.
  induction ders as [|d ders IH]; intros t x p s; cbn.
  - rewrite app_nil_r. destruct x; reflexivity.
  - unfold mutable_x509_entry at 2. cbn. rewrite IH. cbn.
    rewrite <- app_assoc. reflexivity.
Qed.

Lemma fold_add_precertificate_chain (ders : list string) :
  forall t x p s,
    fold_left
      (fun e d => mutable_precert_entry (add_precertificate_chain d) e) ders
      (mkLogEntry t x (Some p) s)
    = mkLogEntry t x
        (Some (mkPrecertChainEntry (pre_certificate p)
                 (precertificate_chain p ++ ders) (pre_cert p)))
        s.
Proof.
  induction ders as [|d ders IH]; intros t x p s; cbn.
  - rewrite app_nil_r. destruct p; reflexivity.
  - unfold mutable_precert_entry at 2. cbn. rewrite IH. cbn.
    rewrite <- app_assoc. reflexivity.
Qed.






(** ** Reconstruction of an entry from an observed chain *)

Lemma SerializedTbs_stripped (cert : Cert) (tbs : string) :
  HasExtension cert NID_sct = Cert_TRUE ->
  SerializedTbs cert = Some tbs ->
  exists stripped,
    Tbs_DeleteExtension (TbsCertificate_of cert) NID_sct = Some stripped
    /\ Tbs_DerEncoding stripped = Some tbs.
Proof.
  intros Hext. unfold SerializedTbs. rewrite Hext. cbn.
  destruct (Cert_IsLoaded cert); cbn; [|discriminate].
  destruct (Tbs_IsLoaded (TbsCertificate_of cert)); cbn; [|discriminate].
  destruct (Tbs_DeleteExtension (TbsCertificate_of cert) NID_sct)
    as [stripped|]; [|discriminate].
  intros H. exists stripped. auto.
Qed.

Lemma Length_with_issuer (leaf issuer : Cert) (more : list Cert) :
  (Length (leaf :: issuer :: more) <? 2) = false.
Proof.
  apply Z.ltb_ge. unfold Length. cbn [length]. lia.
Qed.

(** C2, amended.  [X509ChainToEntry] returns false for a chain that is not
    loaded and when the check for the embedded-SCT-list extension on the leaf
    is indeterminate.  When the extension is present and the chain has an
    issuer, it returns true with a PRECERT_ENTRY whose issuer_key_hash is the
    SPKI hash of the certificate at index 1 and whose tbs_certificate is the
    DER of the leaf's TBS with the extension deleted; when the extension is
    present and the chain has no issuer it returns false.  When the extension
    is absent it returns true with an X509_ENTRY holding the leaf's DER.  A
    failure of the SPKI hash, of the TBS serialization or of the DER encoding
    makes it return false. *)
Theorem X509ChainToEntry_cases
    (leaf issuer : Cert) (more rest : list Cert) (entry : LogEntry) :
  X509ChainToEntry [] entry = Some ((false, entry), [])
  /\ (HasExtension leaf NID_sct = Cert_ERROR ->
      X509ChainToEntry (leaf :: rest) entry = Some ((false, entry), []))
  /\ (HasExtension leaf NID_sct = Cert_TRUE ->
      X509ChainToEntry [leaf] entry = Some ((false, entry), []))
  /\ (forall key_hash tbs,
        HasExtension leaf NID_sct = Cert_TRUE ->
        SPKISha256Digest issuer = Some key_hash ->
        SerializedTbs leaf = Some tbs ->
        (exists stripped,
           Tbs_DeleteExtension (TbsCertificate_of leaf) NID_sct = Some stripped
           /\ Tbs_DerEncoding stripped = Some tbs)
        /\ exists e p pc,
             X509ChainToEntry (leaf :: issuer :: more) entry
             = Some ((true, e), [])
             /\ type e = Some PRECERT_ENTRY
             /\ precert_entry e = Some p /\ pre_cert p = Some pc
             /\ issuer_key_hash pc = Some key_hash
             /\ tbs_certificate pc = Some tbs)
  /\ (HasExtension leaf NID_sct = Cert_TRUE ->
      SPKISha256Digest issuer = None \/ SerializedTbs leaf = None ->
      exists e,
        X509ChainToEntry (leaf :: issuer :: more) entry = Some ((false, e), []))
  /\ (forall der,
        HasExtension leaf NID_sct = Cert_FALSE ->
        DerEncoding leaf = Some der ->
        exists e x,
          X509ChainToEntry (leaf :: rest) entry = Some ((true, e), [])
          /\ type e = Some X509_ENTRY
          /\ x509_entry e = Some x /\ leaf_certificate x = Some der)
  /\ (HasExtension leaf NID_sct = Cert_FALSE ->
      DerEncoding leaf = None ->
      exists e, X509ChainToEntry (leaf :: rest) entry = Some ((false, e), [])).
Proof.
  unfold X509ChainToEntry. cbn [IsLoaded negb LeafCert head deref].
  rewrite !bind_ret, Length_with_issuer.
  split; [reflexivity|].
  split; [intros ->; reflexivity|].
  split; [intros ->; reflexivity|].
  split; [|split; [|split]].
  - intros key_hash tbs Hext Hspki Htbs.
    split; [exact (SerializedTbs_stripped _ _ Hext Htbs)|].
    rewrite Hext. cbn. rewrite Hspki. cbn. rewrite Htbs.
    do 3 eexists. repeat split.
  - intros Hext Hfail. rewrite Hext. cbn.
    destruct (SPKISha256Digest issuer) as [key_hash|]; cbn;
      [|eexists; reflexivity].
    destruct Hfail as [Hfail|Hfail]; [discriminate|].
    rewrite Hfail. eexists; reflexivity.
  - intros der Hext Hder. rewrite Hext. cbn. rewrite Hder.
    do 2 eexists. repeat split.
  - intros Hext Hder. rewrite Hext. cbn. rewrite Hder.
    eexists; reflexivity.
Qed.

(** ** Integer query parameters *)

Lemma long_to_int_range (n : Z) : - 2 ^ 31 <= long_to_int n < 2 ^ 31.
Proof.
  unfold long_to_int.
  pose proof (Z.mod_pos_bound (n + 2 ^ 31) (2 ^ 32) ltac:(lia)). lia.
Qed.

Lemma long_to_int_fits (n : Z) :
  - 2 ^ 31 <= n < 2 ^ 31 -> long_to_int n = n.
Proof.
  intros H. unfold long_to_int. rewrite Z.mod_small; lia.
Qed.

(** X20.  The result of [GetIntParam] always fits an [int], so that
    [start + cap] cannot overflow the 64-bit addition in [GetEntries]. *)
Lemma GetIntParam_range (query : multimap) (param : string) :
  - 2 ^ 31 <= GetIntParam query param < 2 ^ 31.
Proof.
  unfold GetIntParam.
  destruct (GetParam query param EmptyString) as [[|] value]; [|lia].
  destruct (strtol value 0) as [num errno].
  destruct (negb (errno =? 0) || negb (long_to_int num =? num)); [lia|].
  apply long_to_int_range.
Qed.

Lemma GetIntParam_absent (query : multimap) (param : string) :
  multimap_find param query = [] -> GetIntParam query param = -1.
Proof.
  intros H. unfold GetIntParam, GetParam. rewrite H. reflexivity.
Qed.

(** X21.  A parameter that is found but whose value [strtol] reports an
    error for, or converts to a number outside the range of [int], makes
    [GetIntParam] return -1. *)
Lemma GetIntParam_out_of_range (query : multimap) (param value : string)
    (num errno : Z) :
  GetParam query param EmptyString = (true, value) ->
  strtol value 0 = (num, errno) ->
  errno <> 0 \/ num < - 2 ^ 31 \/ 2 ^ 31 <= num ->
  GetIntParam query param = -1.
Proof.
  intros Hp Hs Hbad. unfold GetIntParam. rewrite Hp, Hs.
  destruct (errno =? 0) eqn:He; cbn; [|reflexivity].
  apply Z.eqb_eq in He.
  destruct (long_to_int num =? num) eqn:Hn; cbn; [|reflexivity].
  apply Z.eqb_eq in Hn. pose proof (long_to_int_range num). lia.
Qed.

(** X22.  A parameter that is found and whose value [strtol] converts
    without error to a number in the range of [int] makes [GetIntParam]
    return that number, negative ones included. *)
Lemma GetIntParam_in_range (query : multimap) (param value : string) (num : Z) :
  GetParam query param EmptyString = (true, value) ->
  strtol value 0 = (num, 0) ->
  - 2 ^ 31 <= num < 2 ^ 31 ->
  GetIntParam query param = num.
Proof.
  intros Hp Hs Hfit. unfold GetIntParam. rewrite Hp, Hs.
  rewrite (long_to_int_fits _ Hfit), !Z.eqb_refl. reflexivity.
Qed.

(** ** get-entries *)

Lemma scan_loop_length (include_scts : bool) (indices : list Z) :
  forall it json_entries result,
    scan_loop indices it include_scts json_entries = Some result ->
    (length result <= length json_entries + length indices)%nat.
Proof.
  induction indices as [|i indices IH]; intros it acc result H; cbn in H.
  - injection H as <-. lia.
  - destruct it as [|cert it']; [injection H as <-; cbn; lia|].
    destruct (negb (sequence_number cert =? i)); [injection H as <-; cbn; lia|].
    destruct (SerializeForLeaf cert); [|discriminate].
    destruct (SerializeExtraData cert); [|discriminate].
    destruct (if include_scts then SerializeSCT (lc_get_sct cert)
              else Some EmptyString); [|discriminate].
    apply IH in H. rewrite length_app in H. cbn in H |- *. lia.
Qed.

Lemma BlockingGetEntries_length (this : HttpHandler) (req req' : evhttp_request)
    (start end_ : Z) (include_scts : bool) (code : Z) (entries : list JsonValue)
    (other : list (string * JsonValue)) :
  BlockingGetEntries this req start end_ include_scts
  = Some (tt, [EvSendJsonReply req' code
                 (J_object (("entries", J_array entries) :: other))]) ->
  Z.of_nat (length entries) <= Z.max 0 (end_ - start + 1).
Proof.
  unfold BlockingGetEntries.
  destruct (scan_loop _ _ _ _) as [json_entries|] eqn:Hscan; [|discriminate].
  destruct (Z.of_nat (length json_entries) <? 1); [discriminate|].
  intros [= _ _ <-].
  apply scan_loop_length in Hscan. rewrite length_seqZ in Hscan.
  cbn in Hscan. lia.
Qed.

(** X23.  What the code guarantees for get-entries: a 200 response holds
    at most one entry more than [max_leaf_entries_per_response], because the
    scan runs over the closed range from [start] to [start + cap]. *)
Lemma GetEntries_at_most_cap_plus_one (this : HttpHandler)
    (req req' : evhttp_request) (code : Z) (entries : list JsonValue)
    (other : list (string * JsonValue)) :
  GetEntries this req
  = Some (tt, [EvSendJsonReply req' code
                 (J_object (("entries", J_array entries) :: other))]) ->
  Z.of_nat (length entries)
  <= Z.max 0 (FLAGS_max_leaf_entries_per_response + 1).
Proof.
  unfold GetEntries.
  destruct (negb (is_GET _)); [discriminate|].
  destruct (GetIntParam (ParseQuery req) "start" <? 0); [discriminate|].
  destruct (GetIntParam (ParseQuery req) "end" <? _); [discriminate|].
  intros H. apply BlockingGetEntries_length in H. lia.
Qed.

(** ** Method guard *)

(** C8.  A request to a write endpoint (add-chain, add-pre-chain,
    add-signed-data) whose method is not POST, and a request to a read
    endpoint (get-entries, get-roots, get-proof-by-hash, get-sth,
    get-sth-consistency) whose method is not GET, is answered by the handler
    with 405 "Method not allowed." and nothing else happens: no other reply,
    no task for the thread pool, no call into a collaborator. *)
Theorem method_guard (this : HttpHandler) (req : evhttp_request) :
  (is_POST (evhttp_request_get_command req) = false ->
   AddChain this req
   = Some (tt, [EvSendError req HTTP_BADMETHOD "Method not allowed."])
   /\ AddPreChain this req
      = Some (tt, [EvSendError req HTTP_BADMETHOD "Method not allowed."])
   /\ AddSignedData this req
      = Some (tt, [EvSendError req HTTP_BADMETHOD "Method not allowed."]))
  /\ (is_GET (evhttp_request_get_command req) = false ->
      GetEntries this req
      = Some (tt, [EvSendError req HTTP_BADMETHOD "Method not allowed."])
      /\ GetRoots this req
         = Some (tt, [EvSendError req HTTP_BADMETHOD "Method not allowed."])
      /\ GetProof this req
         = Some (tt, [EvSendError req HTTP_BADMETHOD "Method not allowed."])
      /\ GetSTH this req
         = Some (tt, [EvSendError req HTTP_BADMETHOD "Method not allowed."])
      /\ GetConsistency this req
         = Some (tt, [EvSendError req HTTP_BADMETHOD "Method not allowed."])).
Proof.
  split; intros Hmethod.
  - unfold AddChain, AddPreChain, AddSignedData, ExtractChain,
      ExtractSignedData.
    rewrite Hmethod. repeat split.
  - unfold GetEntries, GetRoots, GetProof, GetSTH, GetConsistency.
    rewrite Hmethod. repeat split.
Qed.

(** ** Proxying *)

Lemma wrapped_empty : wrapped ∅.
Proof. intros path cb H. rewrite lookup_empty in H. discriminate. Qed.

Lemma AddProxyWrappedHandler_wrapped (server server' : gmap string HandlerCallback)
    (path : string) (local_handler : HandlerCallback) (events : list Event) :
  wrapped server ->
  AddProxyWrappedHandler server path local_handler = Some (server', events) ->
  wrapped server' /\ events = [].
Proof.
  intros Hw. unfold AddProxyWrappedHandler, AddHandler.
  destruct (server !! path) eqn:Hlook; cbn; [discriminate|].
  intros [= <- <-]. split; [|reflexivity].
  intros path' cb. rewrite lookup_insert. case_decide as Heq.
  - subst path'. intros [= <-]. exists local_handler. reflexivity.
  - apply Hw.
Qed.

Lemma AddProxyWrappedHandler_fresh (server : gmap string HandlerCallback)
    (path : string) (local_handler : HandlerCallback) :
  server !! path = None ->
  AddProxyWrappedHandler server path local_handler
  = ret (<[path := ProxyInterceptor (StatsHandlerInterceptor path local_handler)]>
           server).
Proof.
  intros H. unfold AddProxyWrappedHandler, AddHandler. rewrite H. reflexivity.
Qed.

Lemma wrapped_insert (server : gmap string HandlerCallback) (path : string)
    (local_handler : HandlerCallback) :
  wrapped server ->
  wrapped (<[path := ProxyInterceptor (StatsHandlerInterceptor path local_handler)]>
             server).
Proof.
  intros Hw path' cb. rewrite lookup_insert. case_decide as Heq.
  - subst path'. intros [= <-]. exists local_handler. reflexivity.
  - apply Hw.
Qed.

Ltac lookup_path :=
  repeat (rewrite lookup_insert_ne by discriminate);
  first [apply lookup_insert_eq | apply lookup_empty].

(** C7.  The proxy interceptor reads the cached staleness flag of the
    handler: when it is set, the request is handed to the thread pool to be
    forwarded and the local handler is not run; when it is clear, the local
    handler runs within the call.  Registration from an empty server
    succeeds, registers exactly the endpoints of the table, each under the
    latency observer under the proxy interceptor, so that the rule is the
    same for every registered endpoint. *)
Theorem ProxyInterceptor_rule (this0 : HttpHandler) :
  (forall local_handler this request,
     ProxyInterceptor local_handler this request
     = if node_is_stale_ this
       then Some (tt, [EvPoolAdd (Task_ProxyRequest request)])
       else local_handler this request)
  /\ exists server,
       Add this0 ∅ = Some (server, [])
       /\ Forall (fun '(path, local_handler) =>
                    server !! path
                    = (fun h => ProxyInterceptor (StatsHandlerInterceptor path h))
                        <$> local_handler)
                 (endpoint_table this0)
       /\ forall path cb,
            server !! path = Some cb ->
            exists local_handler,
              forall this request,
                cb this request
                = if node_is_stale_ this
                  then Some (tt, [EvPoolAdd (Task_ProxyRequest request)])
                  else StatsHandlerInterceptor path local_handler this request.
Proof.
  split; [reflexivity|].
  assert (exists server,
            Add this0 ∅ = Some (server, [])
            /\ Forall (fun '(path, local_handler) =>
                         server !! path
                         = (fun h =>
                              ProxyInterceptor (StatsHandlerInterceptor path h))
                             <$> local_handler)
                      (endpoint_table this0)
            /\ wrapped server) as (server & Hadd & Htable & Hw).
  { unfold Add, endpoint_table.
    destruct (cert_checker_ this0), (frontend_ this0),
      FLAGS_accept_certificates, FLAGS_accept_signed_data;
      cbn [is_Some_b andb];
      repeat (rewrite AddProxyWrappedHandler_fresh by lookup_path;
              rewrite bind_ret);
      rewrite ?bind_ret;
      (eexists; split; [reflexivity|]; split;
       [ repeat constructor; cbn [fmap option_fmap option_map]; lookup_path
       | repeat apply wrapped_insert; apply wrapped_empty ]). }
  exists server. split; [exact Hadd|]. split; [exact Htable|].
  intros path cb Hcb. destruct (Hw path cb Hcb) as [local_handler ->].
  exists local_handler. intros this request. reflexivity.
Qed.

End Properties.

(** * Concrete runs *)

(** ** get-entries returns one entry more than the cap *)

(** C1.  With the default cap of 1000 and a database holding the entries
    0 .. 1000, the request [get-entries?start=0&end=10000] is answered with
    200 and 1001 entries. *)
Theorem GetEntries_returns_cap_plus_one :
  exists entries,
    @GetEntries Fixture.backend Fixture.codec Fixture.glibc default_flags
      (Fixture.handler 1001 false)
      (Fixture.get [("start", "0"); ("end", "10000")])
    = Some (tt,
            [EvSendJsonReply (Fixture.get [("start", "0"); ("end", "10000")])
               200 (J_object [("entries", J_array entries)])])
    /\ length entries = 1001%nat
    /\ @FLAGS_max_leaf_entries_per_response default_flags = 1000.
Proof.
  eexists. split; [vm_compute; reflexivity|]. split; vm_compute; reflexivity.
Qed.

(** Scenario S5 of the design document: with exactly 1000 entries in the
    database the same request is answered with 1000 entries. *)
Lemma GetEntries_scenario_S5 :
  exists entries,
    @GetEntries Fixture.backend Fixture.codec Fixture.glibc default_flags
      (Fixture.handler 1000 false)
      (Fixture.get [("start", "0"); ("end", "10000")])
    = Some (tt,
            [EvSendJsonReply (Fixture.get [("start", "0"); ("end", "10000")])
               200 (J_object [("entries", J_array entries)])])
    /\ length entries = 1000%nat.
Proof.
  eexists. split; vm_compute; reflexivity.
Qed.

(** ** Integer parameters that are not integers *)

(** C3.  [GetIntParam] does not return -1 for a value that is not a decimal
    integer: digits followed by other characters yield the digits' value
    with every C library, a value without any digit yields 0 with a C
    library that leaves errno alone in that case (glibc); get-entries then
    serves the request instead of rejecting the parameter. *)
Theorem GetIntParam_accepts_unparsable_values :
  (forall libc : Libc,
     @GetIntParam libc (ParseQuery (Fixture.get [("start", "12abc")])) "start"
     = 12)
  /\ @GetIntParam Fixture.glibc (ParseQuery (Fixture.get [("start", "abc")]))
       "start" = 0
  /\ exists entry,
       @GetEntries Fixture.backend Fixture.codec Fixture.glibc default_flags
         (Fixture.handler 1000 false)
         (Fixture.get [("start", "abc"); ("end", "0")])
       = Some (tt,
               [EvSendJsonReply (Fixture.get [("start", "abc"); ("end", "0")])
                  200 (J_object [("entries", J_array [entry])])]).
Proof.
  split; [intros [[|]]; vm_compute; reflexivity|].
  split; [vm_compute; reflexivity|].
  eexists. vm_compute. reflexivity.
Qed.

(** The cases in which -1 is returned, and a well-formed value, on the
    concrete library. *)
Lemma GetIntParam_examples :
  @GetIntParam Fixture.glibc [("end", "7")] "start" = -1
  /\ @GetIntParam Fixture.glibc [("start", "1"); ("start", "2")] "start" = -1
  /\ @GetIntParam Fixture.glibc [("start", "4294967296")] "start" = -1
  /\ @GetIntParam Fixture.glibc [("start", "99999999999999999999")] "start" = -1
  /\ @GetIntParam Fixture.glibc [("start", "-2147483649")] "start" = -1
  /\ @GetIntParam Fixture.glibc [("start", "2147483647")] "start" = 2147483647
  /\ @GetIntParam Fixture.glibc [("start", "-5")] "start" = -5.
Proof. repeat split; vm_compute; reflexivity. Qed.

(** ** X509ChainToEntry on a chain without issuer *)

(** C2, as stated, fails: for the loaded one-certificate chain whose leaf
    carries the embedded-SCT-list extension and encodes to DER without error,
    the call does not return true with an X509_ENTRY; it returns false. *)
Lemma X509ChainToEntry_without_issuer :
  @IsLoaded Fixture.backend [Fixture.leaf_with_sct] = true
  /\ @HasExtension Fixture.backend Fixture.leaf_with_sct
       (@NID_sct Fixture.backend) = Cert_TRUE
  /\ @DerEncoding Fixture.backend Fixture.leaf_with_sct = Some "der:leaf"
  /\ @X509ChainToEntry Fixture.backend [Fixture.leaf_with_sct] LogEntry_new
     = Some ((false, LogEntry_new), [])
  /\ ~ (exists e x,
          @X509ChainToEntry Fixture.backend [Fixture.leaf_with_sct] LogEntry_new
          = Some ((true, e), [])
          /\ type e = Some X509_ENTRY
          /\ x509_entry e = Some x
          /\ leaf_certificate x = Some "der:leaf").
Proof.
  repeat split; try (vm_compute; reflexivity).
  intros (e & x & H & _). vm_compute in H. discriminate H.
Qed.


(** ** Witnesses *)

Lemma X509ChainToEntry_cases_witness :
  exists e,
    @X509ChainToEntry Fixture.backend
      [Fixture.leaf_with_sct; Fixture.issuer] LogEntry_new
    = Some ((true, e), [])
    /\ type e = Some PRECERT_ENTRY
    /\ precert_entry e
       = Some (mkPrecertChainEntry None []
                 (Some (mkPreCert (Some "hash-of-issuer-key")
                                  (Some "tbs:leaf")))).
Proof.
  destruct (@X509ChainToEntry_cases Fixture.backend Fixture.leaf_with_sct
              Fixture.issuer [] [] LogEntry_new)
    as (_ & _ & _ & Hprecert & _).
  destruct (Hprecert "hash-of-issuer-key" "tbs:leaf")
    as (_ & e & p & pc & Hrun & Htype & _);
    [reflexivity | reflexivity | reflexivity |].
  exists e. split; [exact Hrun|]. split; [exact Htype|].
  vm_compute in Hrun. injection Hrun as <-. reflexivity.
Defined.


Lemma ProcessSignedDataSubmission_check_fails_witness :
  ok (fst (CheckSignedData Fixture.rejecting Fixture.signed_data)) = false
  /\ ProcessSignedDataSubmission Fixture.rejecting Fixture.signed_data
       (set_type X509_ENTRY LogEntry_new)
     = Some ((Fixture.unauthenticated, set_type X509_ENTRY LogEntry_new),
             [EvCheckSignedData Fixture.signed_data]).
Proof.
  split; [reflexivity|].
  apply (@ProcessSignedDataSubmission_check_fails Fixture.backend
           Fixture.rejecting Fixture.signed_data
           (set_type X509_ENTRY LogEntry_new)).
  reflexivity.
Defined.

Lemma ProcessX509Submission_empty_chain_witness :
  @IsLoaded Fixture.backend [] = false
  /\ ProcessX509Submission Fixture.accepting [] LogEntry_new
     = Some ((mkStatus error.INVALID_ARGUMENT "empty submission", LogEntry_new),
             [])
  /\ BlockingAddChain (Fixture.handler 0 false)
       (Fixture.post (J_object [("chain", J_array [])])) []
     = Some (tt,
             [EvSendError (Fixture.post (J_object [("chain", J_array [])]))
                400 "empty submission"]).
Proof.
  split; [reflexivity|].
  destruct (ProcessX509Submission_empty_chain
              (backend := Fixture.backend) (codec := Fixture.codec)
              Fixture.accepting [] LogEntry_new eq_refl)
    as (Hprocess & _ & Hreply & _).
  split; [exact Hprocess|].
  apply (Hreply (Fixture.handler 0 false) Fixture.frontend). reflexivity.
Defined.

Lemma CopyFromClientLogEntry_unsupported_type_witness :
  @CopyFromClientLogEntry Fixture.backend Fixture.stored Fixture.unknown_leaf
  = Some ((false, Fixture.stored), []).
Proof.
  apply (@CopyFromClientLogEntry_unsupported_type Fixture.backend);
    discriminate.
Defined.

Lemma method_guard_witness :
  @AddChain Fixture.backend Fixture.codec (Fixture.handler 0 false)
    (Fixture.get [])
  = Some (tt, [EvSendError (Fixture.get []) 405 "Method not allowed."])
  /\ @GetEntries Fixture.backend Fixture.codec Fixture.glibc default_flags
       (Fixture.handler 0 false) (Fixture.post J_null)
     = Some (tt, [EvSendError (Fixture.post J_null) 405 "Method not allowed."]).
Proof.
  split.
  - destruct (@method_guard Fixture.backend Fixture.codec Fixture.glibc
                default_flags (Fixture.handler 0 false) (Fixture.get []))
      as [Hwrite _].
    destruct (Hwrite eq_refl) as [Hchain _]. exact Hchain.
  - destruct (@method_guard Fixture.backend Fixture.codec Fixture.glibc
                default_flags (Fixture.handler 0 false) (Fixture.post J_null))
      as [_ Hread].
    destruct (Hread eq_refl) as [Hentries _]. exact Hentries.
Defined.

Lemma ProxyInterceptor_rule_witness :
  exists server cb,
    @Add Fixture.backend Fixture.codec Fixture.glibc default_flags
      (Fixture.handler 0 false) ∅ = Some (server, [])
    /\ server !! "/ct/v1/add-chain" = Some cb
    /\ cb (Fixture.handler 0 true) (Fixture.get [])
       = Some (tt, [EvPoolAdd (Task_ProxyRequest (Fixture.get []))])
    /\ cb (Fixture.handler 0 false) (Fixture.get [])
       = Some (tt, [EvSendError (Fixture.get []) 405 "Method not allowed.";
                    EvLatency "/ct/v1/add-chain"]).
Proof.
  destruct (@ProxyInterceptor_rule Fixture.backend Fixture.codec Fixture.glibc
              default_flags (Fixture.handler 0 false))
    as (_ & server & Hadd & Htable & _).
  exists server, (ProxyInterceptor
                    (StatsHandlerInterceptor "/ct/v1/add-chain"
                       (AddChain (codec := Fixture.codec)))).
  split; [exact Hadd|]. split; [|split; reflexivity].
  apply Forall_cons in Htable as [_ Htable].
  apply Forall_cons in Htable as [_ Htable].
  apply Forall_cons in Htable as [_ Htable].
  apply Forall_cons in Htable as [_ Htable].
  apply Forall_cons in Htable as [_ Htable].
  apply Forall_cons in Htable as [Hchain _].
  exact Hchain.
Defined.

(** * Further properties of the code *)

Section MoreProperties.

Context {backend : X509Backend} {codec : Codec} {libc : Libc} {FLAGS : Flags}.

(** ** The order on keys *)

Lemma ascii_compare_trans (a b c : ascii) :
  Ascii.compare a b = Lt -> Ascii.compare b c = Lt -> Ascii.compare a c = Lt.
Proof.
  unfold Ascii.compare. rewrite !N.compare_lt_iff. lia.
Qed.

Lemma ascii_compare_refl (a : ascii) : Ascii.compare a a = Eq.
Proof. unfold Ascii.compare. apply N.compare_refl. Qed.

Lemma string_compare_refl (s : string) : String.compare s s = Eq.
Proof.
  induction s as [|c s IH]; cbn; [reflexivity|].
  rewrite ascii_compare_refl. exact IH.
Qed.

Lemma string_compare_trans (s1 : string) :
  forall s2 s3,
    String.compare s1 s2 = Lt -> String.compare s2 s3 = Lt ->
    String.compare s1 s3 = Lt.
Proof.
  induction s1 as [|c1 s1 IH]; intros [|c2 s2] [|c3 s3]; cbn;
    try discriminate; try reflexivity.
  destruct (Ascii.compare c1 c2) eqn:H12; try discriminate;
    destruct (Ascii.compare c2 c3) eqn:H23; try discriminate.
  - apply Ascii.compare_eq_iff in H12, H23. subst.
    rewrite ascii_compare_refl. apply IH.
  - apply Ascii.compare_eq_iff in H12. subst. rewrite H23. reflexivity.
  - apply Ascii.compare_eq_iff in H23. subst. rewrite H12. reflexivity.
  - rewrite (ascii_compare_trans _ _ _ H12 H23). reflexivity.
Qed.

Lemma ltb_irrefl (s : string) : String.ltb s s = false.
Proof. unfold String.ltb. rewrite string_compare_refl. reflexivity. Qed.

Lemma ltb_asym (s1 s2 : string) :
  String.ltb s1 s2 = true -> String.ltb s2 s1 = false.
Proof.
  unfold String.ltb. rewrite (String.compare_antisym s1 s2).
  destruct (String.compare s2 s1); cbn; congruence.
Qed.

Lemma ltb_trans (s1 s2 s3 : string) :
  String.ltb s1 s2 = true -> String.ltb s2 s3 = true ->
  String.ltb s1 s3 = true.
Proof.
  unfold String.ltb.
  destruct (String.compare s1 s2) eqn:H12; try discriminate.
  destruct (String.compare s2 s3) eqn:H23; try discriminate.
  rewrite (string_compare_trans _ _ _ H12 H23). reflexivity.
Qed.

Lemma ltb_total (s1 s2 : string) :
  String.ltb s2 s1 = false -> s1 <> s2 -> String.ltb s1 s2 = true.
Proof.
  unfold String.ltb. intros Hge Hne.
  rewrite (String.compare_antisym s2 s1) in Hge.
  destruct (String.compare s1 s2) eqn:H; cbn in Hge; try congruence.
  apply String.compare_eq_iff in H. congruence.
Qed.

(** ** The query multimap *)

Lemma Forall_multimap_insert (P : string * string -> Prop)
    (kv : string * string) (m : multimap) :
  P kv -> Forall P m -> Forall P (multimap_insert kv m).
Proof.
  intros Hkv. induction m as [|[k v] rest IH]; cbn; intros Hall.
  - constructor; [exact Hkv | constructor].
  - apply Forall_cons in Hall as [Hk Hall].
    destruct (String.ltb (fst kv) k); repeat constructor; auto.
Qed.

Lemma multimap_insert_sorted (kv : string * string) (m : multimap) :
  sorted_by_key m -> sorted_by_key (multimap_insert kv m).
Proof.
  induction m as [|[k v] rest IH]; cbn; intros Hs.
  - split; [constructor | exact I].
  - destruct Hs as [Hall Hs].
    destruct (String.ltb (fst kv) k) eqn:Hlt; cbn.
    + split; [|split; assumption].
      constructor; [apply ltb_asym; exact Hlt|].
      eapply Forall_impl; [exact Hall|]. cbn. intros kv' Hge.
      destruct (String.ltb (fst kv') (fst kv)) eqn:Hlt'; [|reflexivity].
      rewrite (ltb_trans _ _ _ Hlt' Hlt) in Hge. discriminate.
    + split; [|apply IH; exact Hs].
      apply Forall_multimap_insert; [exact Hlt | exact Hall].
Qed.

Lemma multimap_insert_perm (kv : string * string) (m : multimap) :
  Permutation (multimap_insert kv m) (kv :: m).
Proof.
  induction m as [|[k v] rest IH]; cbn; [reflexivity|].
  destruct (String.ltb (fst kv) k); [reflexivity|].
  rewrite IH. apply perm_swap.
Qed.

Lemma with_key_cons (param : string) (kv : string * string)
    (kvs : list (string * string)) :
  with_key param (kv :: kvs)
  = if decide (fst kv = param) then kv :: with_key param kvs
    else with_key param kvs.
Proof. unfold with_key. rewrite filter_cons. reflexivity. Qed.

Lemma with_key_app (param : string) (l1 l2 : list (string * string)) :
  with_key param (l1 ++ l2) = with_key param l1 ++ with_key param l2.
Proof. unfold with_key. apply filter_app. Qed.

Lemma sorted_no_later_key (param k : string) (rest : list (string * string)) :
  Forall (fun kv' => String.ltb (fst kv') k = false) rest ->
  String.ltb param k = true ->
  with_key param rest = [].
Proof.
  intros Hall Hlt.
  induction rest as [|kv' rest IH]; [reflexivity|].
  apply Forall_cons in Hall as [Hge Hall]. rewrite with_key_cons.
  destruct (decide (fst kv' = param)) as [He|He]; [|apply IH; exact Hall].
  rewrite He, Hlt in Hge. discriminate.
Qed.

Lemma multimap_insert_with_key (param : string) (kv : string * string)
    (m : multimap) :
  sorted_by_key m ->
  with_key param (multimap_insert kv m)
  = with_key param m ++ with_key param [kv].
Proof.
  induction m as [|[k v] rest IH]; cbn [multimap_insert]; intros Hs;
    [reflexivity|].
  destruct Hs as [Hall Hs]. cbn [fst] in Hall.
  destruct (String.ltb (fst kv) k) eqn:Hlt.
  - rewrite !with_key_cons. cbn [fst].
    change (with_key param []) with (@nil (string * string)).
    destruct (decide (fst kv = param)) as [Hp|Hp];
      [|rewrite app_nil_r; reflexivity].
    rewrite <- Hp in *.
    rewrite (sorted_no_later_key (fst kv) k rest Hall Hlt).
    destruct (decide (k = fst kv)) as [Hk|Hk]; [|reflexivity].
    rewrite Hk, ltb_irrefl in Hlt. discriminate.
  - rewrite !with_key_cons. cbn [fst]. rewrite (IH Hs).
    destruct (decide (k = param)); reflexivity.
Qed.

Lemma fold_insert_sorted (keyval : list (string * string)) :
  forall m,
    sorted_by_key m ->
    sorted_by_key
      (fold_left (fun retval kv => multimap_insert kv retval) keyval m)
    /\ Permutation
         (fold_left (fun retval kv => multimap_insert kv retval) keyval m)
         (m ++ keyval)
    /\ forall param,
         with_key param
           (fold_left (fun retval kv => multimap_insert kv retval) keyval m)
         = with_key param m ++ with_key param keyval.
Proof.
  induction keyval as [|kv keyval IH]; intros m Hs; cbn [fold_left].
  - split; [exact Hs|]. split; [rewrite app_nil_r; reflexivity|].
    intros param. change (with_key param []) with (@nil (string * string)).
    rewrite app_nil_r. reflexivity.
  - destruct (IH _ (multimap_insert_sorted kv m Hs)) as (Hs' & Hp & Hk).
    split; [exact Hs'|]. split.
    + rewrite Hp, multimap_insert_perm.
      change (kv :: m) with ([kv] ++ m).
      rewrite (Permutation_app_comm [kv] m), <- app_assoc. reflexivity.
    + intros param. rewrite Hk, (multimap_insert_with_key _ _ _ Hs).
      rewrite <- app_assoc, <- with_key_app. reflexivity.
Qed.

Lemma ParseQuery_sorted_lemma (req : evhttp_request)
    (keyval : list (string * string)) :
  req_query req = Some keyval ->
  sorted_by_key (ParseQuery req)
  /\ Permutation (ParseQuery req) keyval
  /\ forall param, with_key param (ParseQuery req) = with_key param keyval.
Proof.
  intros Hq. unfold ParseQuery. rewrite Hq.
  destruct (fold_insert_sorted keyval [] I) as (Hs & Hp & Hk).
  split; [exact Hs|]. split; [exact Hp|]. exact Hk.
Qed.

(** X1.  [ParseQuery] keeps every key/value pair of the query string
    (none lost, none added), puts them in key order, and keeps the pairs of
    one key in the order they came in. *)
Theorem ParseQuery_sorted_permutation (req : evhttp_request)
    (keyval : list (string * string)) :
  req_query req = Some keyval ->
  sorted_by_key (ParseQuery req)
  /\ Permutation (ParseQuery req) keyval
  /\ forall param, with_key param (ParseQuery req) = with_key param keyval.
Proof.
  exact (ParseQuery_sorted_lemma req keyval).
Qed.

Lemma GetParam_sorted (param value : string) (m : multimap) :
  sorted_by_key m ->
  GetParam m param value
  = match with_key param m with
    | [(_, found)] => (true, found)
    | _ => (false, value)
    end.
Proof.
  unfold GetParam.
  induction m as [|[k v] rest IH]; cbn [multimap_find]; intros Hs;
    [reflexivity|].
  destruct Hs as [Hall Hs]. rewrite with_key_cons. cbn [fst] in *.
  destruct (String.eqb_spec k param) as [->|Hne].
  - rewrite decide_True by reflexivity.
    destruct rest as [|[k' v'] rest']; [reflexivity|].
    rewrite with_key_cons. cbn [fst].
    destruct (String.eqb_spec k' param) as [->|Hne'].
    + rewrite decide_True by reflexivity. reflexivity.
    + rewrite decide_False by exact Hne'. cbn [negb].
      apply Forall_cons in Hall as [Hge Hall]. cbn [fst] in Hge.
      destruct Hs as [Hall' _]. cbn [fst] in Hall'.
      rewrite (sorted_no_later_key param k' rest' Hall'); [reflexivity|].
      apply ltb_total; [exact Hge | congruence].
  - rewrite decide_False by exact Hne. apply IH. exact Hs.
Qed.

Lemma GetParam_ParseQuery (req : evhttp_request)
    (keyval : list (string * string)) (param value : string) :
  req_query req = Some keyval ->
  GetParam (ParseQuery req) param value
  = match with_key param keyval with
    | [(_, found)] => (true, found)
    | _ => (false, value)
    end.
Proof.
  intros Hq.
  destruct (ParseQuery_sorted_lemma req keyval Hq) as (Hs & _ & Hk).
  rewrite (GetParam_sorted _ _ _ Hs), Hk. reflexivity.
Qed.

(** X2.  [GetParam] on a parsed query finds a parameter exactly when the
    query string carries it once, wherever the pair stands; a parameter that
    is missing or given more than once is not found and the output string is
    left alone. *)
Theorem GetParam_exactly_once (req : evhttp_request)
    (keyval : list (string * string)) (param value : string) :
  req_query req = Some keyval ->
  GetParam (ParseQuery req) param value
  = match with_key param keyval with
    | [(_, found)] => (true, found)
    | _ => (false, value)
    end.
Proof.
  exact (GetParam_ParseQuery req keyval param value).
Qed.

(** ** The scan of get-entries *)

Lemma seqZ_S (i : Z) (len : nat) :
  seqZ i (Z.of_nat (S len)) = i :: seqZ (i + 1) (Z.of_nat len).
Proof.
  rewrite seqZ_cons by lia. f_equal. f_equal; lia.
Qed.

Lemma scan_loop_prefix (include_scts : bool) (len : nat) :
  forall i it json_entries result,
    scan_loop (seqZ i (Z.of_nat len)) it include_scts json_entries
    = Some result ->
    exists records,
      result = json_entries ++ records
      /\ (length records <= len)%nat
      /\ Forall2 (entry_record include_scts)
                 (take (length records) it) records
      /\ (forall j cert,
            (j < length records)%nat -> it !! j = Some cert ->
            sequence_number cert = i + Z.of_nat j)
      /\ ((length records < len)%nat ->
          forall cert,
            it !! length records = Some cert ->
            sequence_number cert <> i + Z.of_nat (length records)).
Proof.
  induction len as [|len IH]; intros i it acc result H.
  - cbn in H. injection H as <-. exists []. rewrite app_nil_r.
    split; [reflexivity|]. split; [cbn; lia|]. split; [constructor|].
    split; [intros j cert Hj; cbn in Hj; lia | cbn; lia].
  - rewrite seqZ_S in H. cbn [scan_loop] in H.
    destruct it as [|cert it'].
    { injection H as <-. exists []. rewrite app_nil_r.
      split; [reflexivity|]. split; [cbn; lia|]. split; [constructor|].
      split; [intros j c Hj; cbn in Hj; lia | intros _ c Hc; discriminate]. }
    destruct (sequence_number cert =? i) eqn:Hseq; cbn [negb] in H.
    2:{ injection H as <-. exists []. rewrite app_nil_r.
        split; [reflexivity|]. split; [cbn; lia|]. split; [constructor|].
        split; [intros j c Hj; cbn in Hj; lia|].
        intros _ c [= <-]. apply Z.eqb_neq in Hseq. cbn. lia. }
    apply Z.eqb_eq in Hseq.
    destruct (SerializeForLeaf cert) as [leaf_input|] eqn:Hleaf;
      [|discriminate].
    destruct (SerializeExtraData cert) as [extra_data|] eqn:Hextra;
      [|discriminate].
    destruct (if include_scts then SerializeSCT (lc_get_sct cert)
              else Some EmptyString) as [sct_data|] eqn:Hsct; [|discriminate].
    destruct (IH _ _ _ _ H) as (records & -> & Hlen & Hall & Hcons & Hmax).
    eexists (_ :: records). rewrite <- app_assoc. split; [reflexivity|].
    cbn [length take]. split; [lia|]. split; [|split].
    + constructor; [|exact Hall].
      unfold entry_record. exists leaf_input, extra_data.
      split; [exact Hleaf|]. split; [exact Hextra|].
      destruct include_scts;
        [exists sct_data; split; [exact Hsct | reflexivity] | reflexivity].
    + intros [|j] c Hj; cbn.
      * intros [= <-]. lia.
      * intros Hc. rewrite (Hcons j c); [lia | lia | exact Hc].
    + intros Hlt c Hc. cbn in Hc.
      pose proof (Hmax ltac:(lia) c Hc). lia.
Qed.

(** X3.  A 200 response of get-entries holds at least one record; its
    records are those of the first entries the database scan yields, in
    order, each the object of the entry's serialized leaf_input and
    extra_data, and of its serialized sct exactly when SCTs were asked for;
    these entries carry the consecutive sequence numbers start, start+1,
    ...; and the response stops early only where the scan ends or yields
    another sequence number than the next one. *)
Theorem BlockingGetEntries_consecutive (this : HttpHandler)
    (req req' : evhttp_request) (start end_ : Z) (include_scts : bool)
    (code : Z) (json : JsonValue) :
  BlockingGetEntries this req start end_ include_scts
  = Some (tt, [EvSendJsonReply req' code json]) ->
  exists records,
    json = J_object [("entries", J_array records)]
    /\ (0 < length records)%nat
    /\ Z.of_nat (length records) <= end_ - start + 1
    /\ Forall2 (entry_record include_scts)
               (take (length records) (ScanEntries (db_ this) start)) records
    /\ (forall j cert,
          (j < length records)%nat ->
          ScanEntries (db_ this) start !! j = Some cert ->
          sequence_number cert = start + Z.of_nat j)
    /\ (Z.of_nat (length records) < end_ - start + 1 ->
        forall cert,
          ScanEntries (db_ this) start !! length records = Some cert ->
          sequence_number cert <> start + Z.of_nat (length records)).
Proof.
  unfold BlockingGetEntries.
  destruct (scan_loop _ _ _ _) as [json_entries|] eqn:Hscan; [|discriminate].
  destruct (Z.of_nat (length json_entries) <? 1) eqn:Hempty; [discriminate|].
  intros [= _ _ <-]. apply Z.ltb_ge in Hempty.
  assert (Hn : 0 <= end_ - start + 1).
  { destruct (Z.le_gt_cases 0 (end_ - start + 1)) as [Hle|Hgt]; [exact Hle|].
    unfold seqZ in Hscan.
    replace (Z.to_nat (end_ - start + 1)) with 0%nat in Hscan by lia.
    cbn in Hscan. injection Hscan as <-. cbn in Hempty. lia. }
  rewrite <- (Z2Nat.id _ Hn) in Hscan.
  apply scan_loop_prefix in Hscan
    as (records & -> & Hlen & Hall & Hcons & Hmax).
  cbn [app] in *. exists records. split; [reflexivity|].
  split; [lia|]. split; [lia|]. split; [exact Hall|].
  split; [exact Hcons|]. intros Hlt. apply Hmax. lia.
Qed.

(** ** One reply per request *)

Ltac case_handler :=
  repeat match goal with
    | |- context [if ?b then _ else _] => destruct b
    | |- context [match ?x with _ => _ end] => destruct x
    end.

Ltac one_reply :=
  eexists; split; [reflexivity|];
  first [ right; eexists; reflexivity
        | left; do 2 eexists; split; [reflexivity|]; cbn; tauto ].

(** X4.  Whatever the request, each read handler runs to the end and its
    only effect is one reply to that request: 200 with a JSON object, or an
    error with code 400, 405 or 500 (get-sth: only 405).  No read handler
    hands work to the thread pool.  For get-roots this needs the certificate
    checker to be present. *)
Theorem read_handlers_reply_once (this : HttpHandler) (req : evhttp_request) :
  replies_once req [400; 405; 500] (GetEntries this req)
  /\ replies_once req [400; 405] (GetProof this req)
  /\ replies_once req [405] (GetSTH this req)
  /\ replies_once req [400; 405] (GetConsistency this req)
  /\ (is_Some (cert_checker_ this) ->
      replies_once req [405; 500] (GetRoots this req)).
Proof.
  unfold replies_once.
  split; [|split; [|split; [|split]]].
  - unfold GetEntries, BlockingGetEntries, SendError, SendJsonReply, tell.
    case_handler; one_reply.
  - unfold GetProof, SendError, SendJsonReply, tell.
    case_handler; one_reply.
  - unfold GetSTH, SendError, SendJsonReply, tell.
    case_handler; one_reply.
  - unfold GetConsistency, SendError, SendJsonReply, tell.
    case_handler; one_reply.
  - intros [checker Hchecker].
    unfold GetRoots, SendError, SendJsonReply, tell. rewrite Hchecker.
    cbn [deref]. rewrite bind_ret.
    case_handler; one_reply.
Qed.

(** ** Decoding of submissions *)

(** The loop over the "chain" array either takes every element (all are
    strings that decode to loaded certificates) and appends the
    certificates, or stops with one 400 reply, and then the array is not of
    that form. *)
Lemma ExtractChain_loop_outcome (req : evhttp_request)
    (json_chain : list JsonValue) :
  forall chain,
    (exists ders,
       json_chain = map J_string ders
       /\ Forall (fun c => Cert_IsLoaded c = true) (map decode_cert ders)
       /\ ExtractChain_loop req json_chain chain
          = Some ((true, chain ++ map decode_cert ders), []))
    \/ ((forall ders,
           json_chain = map J_string ders ->
           ~ Forall (fun c => Cert_IsLoaded c = true) (map decode_cert ders))
        /\ exists chain' msg,
             (msg = "Unable to parse provided JSON."
              \/ msg = "Unable to parse provided chain.")
             /\ ExtractChain_loop req json_chain chain
                = Some ((false, chain'), [EvSendError req 400 msg])).
Proof.
  induction json_chain as [|elem rest IH]; intros chain; cbn [ExtractChain_loop].
  - left. exists []. cbn. rewrite app_nil_r. repeat split. constructor.
  - destruct elem as [ | n | json_cert | b | g | l | f ];
      try (right; split;
           [ intros [|d ders] Hmap; discriminate Hmap
           | do 2 eexists; split; [left; reflexivity | reflexivity] ]).
    fold (decode_cert json_cert).
    destruct (Cert_IsLoaded (decode_cert json_cert)) eqn:Hloaded; cbn [negb].
    2:{ right. split.
        - intros [|d ders] Hmap; [discriminate Hmap|].
          injection Hmap as <- _. cbn [map]. intros Hall.
          apply Forall_cons in Hall as [Hd _]. congruence.
        - do 2 eexists. split; [right; reflexivity | reflexivity]. }
    destruct (IH (AddCert (decode_cert json_cert) chain))
      as [(ders & -> & Hall & Hrun) | (Hnot & chain' & msg & Hmsg & Hrun)].
    + left. exists (json_cert :: ders). cbn [map]. split; [reflexivity|].
      split; [constructor; assumption|].
      rewrite Hrun. unfold AddCert. rewrite <- app_assoc. reflexivity.
    + right. split.
      * intros [|d ders] Hmap; [discriminate Hmap|].
        injection Hmap as _ Hrest. cbn [map]. intros Hall.
        apply Forall_cons in Hall as [_ Hall]. exact (Hnot ders Hrest Hall).
      * exists chain', msg. auto.
Qed.

Lemma ExtractChain_outcome (req : evhttp_request) (chain : CertChain) :
  (is_POST (evhttp_request_get_command req) = false
   /\ ExtractChain req chain
      = Some ((false, chain), [EvSendError req 405 "Method not allowed."]))
  \/ (is_POST (evhttp_request_get_command req) = true
      /\ ~ (exists fields ders,
              req_body req = Some (J_object fields)
              /\ JsonArray_field fields "chain" = Some (map J_string ders)
              /\ Forall (fun c => Cert_IsLoaded c = true)
                        (map decode_cert ders))
      /\ exists chain' msg,
           (msg = "Unable to parse provided JSON."
            \/ msg = "Unable to parse provided chain.")
           /\ ExtractChain req chain
              = Some ((false, chain'), [EvSendError req 400 msg]))
  \/ (is_POST (evhttp_request_get_command req) = true
      /\ exists fields ders,
           req_body req = Some (J_object fields)
           /\ JsonArray_field fields "chain" = Some (map J_string ders)
           /\ Forall (fun c => Cert_IsLoaded c = true) (map decode_cert ders)
           /\ ExtractChain req chain
              = Some ((true, chain ++ map decode_cert ders), [])).
Proof.
  unfold ExtractChain.
  destruct (is_POST (evhttp_request_get_command req)) eqn:Hpost; cbn [negb];
    [|left; split; reflexivity].
  right.
  destruct (req_body req) as [[ | | | | | | fields]|] eqn:Hbody;
    try (left; split; [reflexivity|]; split;
         [ intros (fields' & ders & Hb & _); discriminate Hb
         | do 2 eexists; split; [left; reflexivity | reflexivity] ]).
  destruct (JsonArray_field fields "chain") as [json_chain|] eqn:Hfield.
  2:{ left. split; [reflexivity|]. split.
      - intros (fields' & ders & [= <-] & Hf & _). congruence.
      - do 2 eexists. split; [left; reflexivity | reflexivity]. }
  destruct (ExtractChain_loop_outcome req json_chain chain)
    as [(ders & -> & Hall & Hrun) | (Hnot & chain' & msg & Hmsg & Hrun)].
  - right. split; [reflexivity|]. exists fields, ders. auto.
  - left. split; [reflexivity|]. split.
    + intros (fields' & ders & [= <-] & Hf & Hall).
      rewrite Hfield in Hf. injection Hf as ->. exact (Hnot ders eq_refl Hall).
    + exists chain', msg. auto.
Qed.

(** X5.  add-chain and add-pre-chain have exactly three outcomes.  A method
    other than POST is answered 405 "Method not allowed." and nothing is
    scheduled.  A POST whose body is not a JSON object with an array "chain"
    of strings that all decode to loaded certificates is answered 400
    (unable to parse the JSON, or the chain) and nothing is scheduled.  A
    POST whose body is such an object is not answered by the handler:
    exactly one worker task is scheduled, and it carries exactly these
    certificates, in the order of the array. *)
Theorem AddChain_outcome (this : HttpHandler) (req : evhttp_request) :
  (is_POST (evhttp_request_get_command req) = false
   /\ AddChain this req
      = Some (tt, [EvSendError req 405 "Method not allowed."])
   /\ AddPreChain this req
      = Some (tt, [EvSendError req 405 "Method not allowed."]))
  \/ (is_POST (evhttp_request_get_command req) = true
      /\ ~ (exists fields ders,
              req_body req = Some (J_object fields)
              /\ JsonArray_field fields "chain" = Some (map J_string ders)
              /\ Forall (fun c => Cert_IsLoaded c = true)
                        (map decode_cert ders))
      /\ exists msg,
           (msg = "Unable to parse provided JSON."
            \/ msg = "Unable to parse provided chain.")
           /\ AddChain this req = Some (tt, [EvSendError req 400 msg])
           /\ AddPreChain this req = Some (tt, [EvSendError req 400 msg]))
  \/ (is_POST (evhttp_request_get_command req) = true
      /\ exists fields ders,
           req_body req = Some (J_object fields)
           /\ JsonArray_field fields "chain" = Some (map J_string ders)
           /\ Forall (fun c => Cert_IsLoaded c = true) (map decode_cert ders)
           /\ AddChain this req
              = Some (tt, [EvPoolAdd
                             (Task_BlockingAddChain req
                                (map decode_cert ders))])
           /\ AddPreChain this req
              = Some (tt, [EvPoolAdd
                             (Task_BlockingAddPreChain req
                                (map decode_cert ders))])).
Proof.
  unfold AddChain, AddPreChain.
  destruct (ExtractChain_outcome req [])
    as [(Hpost & Hrun)
       | [(Hpost & Hnot & chain' & msg & Hmsg & Hrun)
         | (Hpost & fields & ders & Hbody & Hfield & Hall & Hrun)]];
    rewrite Hrun.
  - left. cbn. auto.
  - right. left. split; [exact Hpost|]. split; [exact Hnot|].
    exists msg. cbn. auto.
  - right. right. split; [exact Hpost|]. exists fields, ders. cbn. auto 10.
Qed.

(** X6.  add-signed-data has exactly three outcomes.  A method other than
    POST is answered 405 "Method not allowed." and nothing is scheduled.  A
    POST whose body is not a JSON object with string fields "keyid",
    "signature" and "data" is answered 400 "Unable to parse provided JSON."
    and nothing is scheduled.  A POST whose body is such an object is not
    answered by the handler: exactly one worker task is scheduled, and it
    carries the base64 decodings of the three fields. *)
Theorem AddSignedData_outcome (this : HttpHandler) (req : evhttp_request) :
  (is_POST (evhttp_request_get_command req) = false
   /\ AddSignedData this req
      = Some (tt, [EvSendError req 405 "Method not allowed."]))
  \/ (is_POST (evhttp_request_get_command req) = true
      /\ ~ (exists fields keyid signature data,
              req_body req = Some (J_object fields)
              /\ JsonString_field fields "keyid" = Some keyid
              /\ JsonString_field fields "signature" = Some signature
              /\ JsonString_field fields "data" = Some data)
      /\ AddSignedData this req
         = Some (tt, [EvSendError req 400 "Unable to parse provided JSON."]))
  \/ (is_POST (evhttp_request_get_command req) = true
      /\ exists fields keyid signature data,
           req_body req = Some (J_object fields)
           /\ JsonString_field fields "keyid" = Some keyid
           /\ JsonString_field fields "signature" = Some signature
           /\ JsonString_field fields "data" = Some data
           /\ AddSignedData this req
              = Some (tt, [EvPoolAdd
                             (Task_BlockingAddSignedData req
                                (mkSignedData (FromBase64 keyid)
                                   (FromBase64 data)
                                   (FromBase64 signature)))])).
Proof.
  unfold AddSignedData, ExtractSignedData.
  destruct (is_POST (evhttp_request_get_command req)) eqn:Hpost; cbn [negb];
    [|left; split; reflexivity].
  right.
  destruct (req_body req) as [[ | | | | | | fields]|] eqn:Hbody;
    try (left; split; [reflexivity|]; split;
         [ intros (fields' & k & g & d & Hb & _); discriminate Hb
         | reflexivity ]).
  destruct (JsonString_field fields "keyid") as [keyid|] eqn:Hk.
  2:{ left. split; [reflexivity|]. split; [|reflexivity].
      intros (fields' & k & g & d & [= <-] & Hk' & _). congruence. }
  destruct (JsonString_field fields "signature") as [signature|] eqn:Hs.
  2:{ left. split; [reflexivity|]. split; [|reflexivity].
      intros (fields' & k & g & d & [= <-] & _ & Hs' & _). congruence. }
  destruct (JsonString_field fields "data") as [data|] eqn:Hd.
  2:{ left. split; [reflexivity|]. split; [|reflexivity].
      intros (fields' & k & g & d & [= <-] & _ & _ & Hd'). congruence. }
  right. split; [reflexivity|].
  exists fields, keyid, signature, data. cbn. auto 10.
Qed.

(** ** Outcomes of the X.509 and precertificate entry points *)

Lemma encode_issuers_type (add : string -> LogEntry -> LogEntry)
    (issuers : list Cert) :
  (forall der e, type (add der e) = type e) ->
  forall entry, type (snd (encode_issuers add issuers entry)) = type entry.
Proof.
  intros Hadd. induction issuers as [|cert rest IH]; intros entry; cbn;
    [reflexivity|].
  destruct (DerEncoding cert); [|reflexivity]. rewrite IH. apply Hadd.
Qed.

Lemma encode_issuers_fails (add : string -> LogEntry -> LogEntry)
    (issuers : list Cert) :
  Exists (fun c => DerEncoding c = None) issuers ->
  forall entry, fst (encode_issuers add issuers entry) = false.
Proof.
  induction 1 as [cert rest Hnone | cert rest _ IH]; intros entry; cbn.
  - rewrite Hnone. reflexivity.
  - destruct (DerEncoding cert); [apply IH | reflexivity].
Qed.

Lemma encode_issuers_all (add : string -> LogEntry -> LogEntry)
    (issuers : list Cert) (ders : list string) :
  Forall2 (fun c d => DerEncoding c = Some d) issuers ders ->
  forall entry,
    encode_issuers add issuers entry
    = (true, fold_left (fun e d => add d e) ders entry).
Proof.
  induction 1 as [|cert der rest ders Hder _ IH]; intros entry; cbn;
    [reflexivity|].
  rewrite Hder. apply IH.
Qed.

(** X7.  When the chain checker rejects a loaded chain,
    [ProcessX509Submission] returns the checker's status, hands the entry
    back exactly as it was given, and has called the checker once. *)
Theorem ProcessX509Submission_check_fails (cert_checker : CertChecker)
    (chain : CertChain) (entry : LogEntry) :
  IsLoaded chain = true ->
  ok (fst (CheckCertChain cert_checker chain)) = false ->
  ProcessX509Submission cert_checker chain entry
  = Some ((fst (CheckCertChain cert_checker chain), entry),
          [EvCheckCertChain chain]).
Proof.
  intros Hloaded Hfail. unfold ProcessX509Submission.
  rewrite Hloaded, call_eq. cbn [negb].
  destruct (CheckCertChain cert_checker chain) as [status chain'].
  cbn in Hfail |- *. rewrite Hfail. reflexivity.
Qed.

(** X8.  When the precertificate checker rejects the chain,
    [ProcessPreCertSubmission] returns the checker's status, but the entry
    does not come back as it was given: its precert_entry now exists and
    its issuer_key_hash and tbs_certificate are set to what the checker left
    in the two strings.  The tag and the other payloads are untouched. *)
Theorem ProcessPreCertSubmission_check_fails (cert_checker : CertChecker)
    (chain chain' : PreCertChain) (entry : LogEntry) (status : Status)
    (key_hash tbs : string) :
  CheckPreCertChain cert_checker chain
    (default EmptyString (issuer_key_hash (get_pre_cert entry)))
    (default EmptyString (tbs_certificate (get_pre_cert entry)))
  = (status, chain', key_hash, tbs) ->
  ok status = false ->
  exists entry',
    ProcessPreCertSubmission cert_checker chain entry
    = Some ((status, entry'), [EvCheckPreCertChain chain])
    /\ get_pre_cert entry' = mkPreCert (Some key_hash) (Some tbs)
    /\ is_Some (precert_entry entry')
    /\ pre_certificate (default PrecertChainEntry_new (precert_entry entry'))
       = pre_certificate (default PrecertChainEntry_new (precert_entry entry))
    /\ type entry' = type entry
    /\ x509_entry entry' = x509_entry entry
    /\ signed_data_entry entry' = signed_data_entry entry.
Proof.
  intros Hcheck Hfail. unfold ProcessPreCertSubmission.
  rewrite call_eq.
  change (default PreCert_new
            (pre_cert
               (default PrecertChainEntry_new
                  (precert_entry
                     (mutable_precert_entry (mutable_pre_cert id)
                        (mutable_precert_entry id entry))))))
    with (get_pre_cert entry).
  rewrite Hcheck. cbn [bind ret app]. rewrite Hfail. cbn [negb].
  eexists. split; [reflexivity|]. repeat split; eauto.
Qed.

(** X9.  When the chain checker accepts and hands back a chain one of whose
    certificates does not DER-encode, [ProcessX509Submission] returns
    INTERNAL "could not DER-encode the chain" and leaves the tag of the
    entry as it was; it does not abort. *)
Theorem ProcessX509Submission_encoding_fails (cert_checker : CertChecker)
    (chain chain' : CertChain) (entry : LogEntry) (status : Status) :
  IsLoaded chain = true ->
  CheckCertChain cert_checker chain = (status, chain') ->
  ok status = true ->
  Exists (fun c => DerEncoding c = None) chain' ->
  exists entry',
    ProcessX509Submission cert_checker chain entry
    = Some ((mkStatus error.INTERNAL "could not DER-encode the chain", entry'),
            [EvCheckCertChain chain])
    /\ type entry' = type entry.
Proof.
  intros Hloaded Hcheck Hok Hbad. unfold ProcessX509Submission.
  rewrite Hloaded, call_eq, Hcheck. cbn [negb bind ret app].
  rewrite Hok. cbn [negb].
  destruct chain' as [|leaf rest]; [inversion Hbad|].
  cbn [LeafCert head deref]. rewrite bind_ret.
  destruct (DerEncoding leaf) as [der|] eqn:Hder.
  2:{ eexists. split; reflexivity. }
  apply Exists_cons in Hbad as [Hbad|Hbad]; [congruence|].
  cbn [drop].
  match goal with
  | |- context [encode_issuers ?add ?l ?e] =>
      pose proof (encode_issuers_fails add l Hbad e) as Hfalse;
      pose proof (encode_issuers_type add l
                    ltac:(intros; reflexivity) e) as Htype;
      destruct (encode_issuers add l e) as [b e']
  end.
  cbn in Hfalse, Htype. subst b.
  eexists. split; [reflexivity|]. exact Htype.
Qed.

(** X10.  When the chain checker accepts and every certificate of the chain
    it hands back DER-encodes, [ProcessX509Submission] returns OK with the
    tag X509_ENTRY and the leaf's encoding as leaf_certificate; the
    encodings of the other certificates are appended, in order, to whatever
    certificate_chain the entry already held, and the payloads of the other
    variants are handed back as they were given. *)
Theorem ProcessX509Submission_succeeds (cert_checker : CertChecker)
    (chain chain' : CertChain) (entry : LogEntry) (status : Status)
    (leaf_der : string) (chain_ders : list string) :
  IsLoaded chain = true ->
  CheckCertChain cert_checker chain = (status, chain') ->
  ok status = true ->
  Forall2 (fun c d => DerEncoding c = Some d) chain' (leaf_der :: chain_ders) ->
  ProcessX509Submission cert_checker chain entry
  = Some ((Status_OK,
           mkLogEntry (Some X509_ENTRY)
             (Some (mkX509ChainEntry (Some leaf_der)
                      (certificate_chain
                         (default X509ChainEntry_new (x509_entry entry))
                       ++ chain_ders)))
             (precert_entry entry) (signed_data_entry entry)),
          [EvCheckCertChain chain]).
Proof.
  intros Hloaded Hcheck Hok Hall. unfold ProcessX509Submission.
  rewrite Hloaded, call_eq, Hcheck. cbn [negb bind ret app].
  rewrite Hok. cbn [negb].
  destruct chain' as [|leaf rest]; [inversion Hall|].
  apply Forall2_cons in Hall as [Hder Hall].
  cbn [LeafCert head deref drop]. rewrite bind_ret, Hder.
  rewrite (encode_issuers_all _ _ _ Hall).
  change (mutable_x509_entry (set_leaf_certificate leaf_der) _)
    with (mkLogEntry (type entry)
            (Some (mkX509ChainEntry (Some leaf_der)
                     (certificate_chain
                        (default X509ChainEntry_new (x509_entry entry)))))
            (precert_entry entry) (signed_data_entry entry)).
  rewrite fold_add_certificate_chain. reflexivity.
Qed.

(** ** Reconstruction helper: effects and failure *)

(** X11.  [X509ChainToEntry] never dereferences a null certificate and has
    no effect but its result.  When it returns true the tag of the entry
    says whether the leaf carries the embedded-SCT-list extension
    (PRECERT_ENTRY) or not (X509_ENTRY); whatever it returns, the
    signed-data payload of the entry is untouched. *)
Theorem X509ChainToEntry_returns (chain : CertChain) (entry : LogEntry) :
  exists result entry',
    X509ChainToEntry chain entry = Some ((result, entry'), [])
    /\ signed_data_entry entry' = signed_data_entry entry
    /\ (result = true ->
        exists leaf,
          LeafCert chain = Some leaf
          /\ type entry'
             = Some (match HasExtension leaf NID_sct with
                     | Cert_TRUE => PRECERT_ENTRY
                     | _ => X509_ENTRY
                     end)
          /\ HasExtension leaf NID_sct <> Cert_ERROR).
Proof.
  unfold X509ChainToEntry.
  destruct chain as [|leaf rest]; cbn [IsLoaded negb LeafCert head deref].
  { do 2 eexists. split; [reflexivity|]. split; [reflexivity|]. discriminate. }
  rewrite !bind_ret.
  destruct (HasExtension leaf NID_sct) eqn:Hext; cbn.
  - destruct rest as [|issuer more].
    { do 2 eexists. split; [reflexivity|]. split; [reflexivity|].
      discriminate. }
    rewrite Length_with_issuer. cbn.
    destruct (SPKISha256Digest issuer); cbn.
    2:{ do 2 eexists. split; [reflexivity|]. split; [reflexivity|].
        discriminate. }
    destruct (SerializedTbs leaf); cbn.
    + do 2 eexists. split; [reflexivity|]. split; [reflexivity|].
      intros _. exists leaf. rewrite Hext. repeat split. discriminate.
    + do 2 eexists. split; [reflexivity|]. split; [reflexivity|].
      discriminate.
  - destruct (DerEncoding leaf); cbn.
    + do 2 eexists. split; [reflexivity|]. split; [reflexivity|].
      intros _. exists leaf. rewrite Hext. repeat split. discriminate.
    + do 2 eexists. split; [reflexivity|]. split; [reflexivity|].
      discriminate.
  - do 2 eexists. split; [reflexivity|]. split; [reflexivity|]. discriminate.
Qed.

(** X12.  [SerializedTbs] succeeds exactly when the certificate and its TBS
    view are loaded, the extension check is determinate, and either the
    extension is present, its deletion from the TBS view succeeds and the
    result encodes, or the extension is absent and the TBS view encodes as
    it is; the result is that encoding. *)
Theorem SerializedTbs_succeeds_iff (cert : Cert) (tbs : string) :
  SerializedTbs cert = Some tbs
  <-> Cert_IsLoaded cert = true
      /\ Tbs_IsLoaded (TbsCertificate_of cert) = true
      /\ ((HasExtension cert NID_sct = Cert_TRUE
           /\ exists stripped,
                Tbs_DeleteExtension (TbsCertificate_of cert) NID_sct
                = Some stripped
                /\ Tbs_DerEncoding stripped = Some tbs)
          \/ (HasExtension cert NID_sct = Cert_FALSE
              /\ Tbs_DerEncoding (TbsCertificate_of cert) = Some tbs)).
Proof.
  unfold SerializedTbs. split.
  - destruct (Cert_IsLoaded cert); cbn [negb]; [|discriminate].
    destruct (HasExtension cert NID_sct) eqn:Hext; cbn; try discriminate;
      (destruct (Tbs_IsLoaded (TbsCertificate_of cert)); cbn [negb];
       [|discriminate]).
    + destruct (Tbs_DeleteExtension (TbsCertificate_of cert) NID_sct)
        as [stripped|] eqn:Hdel; [|discriminate].
      intros H. repeat split. left. split; [reflexivity|].
      exists stripped. auto.
    + intros H. repeat split. right. auto.
  - intros (Hc & Ht & [(Hext & stripped & Hdel & Hder) | (Hext & Hder)]);
      rewrite Hc, Hext; cbn; rewrite Ht; cbn; rewrite ?Hdel; exact Hder.
Qed.

(** ** Entries fetched from another log: what is copied *)

(** X13.  [CopyFromClientLogEntry] never reaches its fatal default branch.
    It returns true exactly for the three supported leaf types; it then has
    dropped the sequence number and the leaf hash, holds an SCT with version
    V1 and the timestamp and extensions of the leaf and nothing else, and
    holds an entry tagged with the type of the leaf. *)
Theorem CopyFromClientLogEntry_outcome (this : LoggedCertificate)
    (entry : AsyncLogClient_Entry) :
  exists result copied,
    CopyFromClientLogEntry this entry = Some ((result, copied), [])
    /\ (result = false
        <-> te_entry_type (timestamped_entry (cl_leaf entry))
            = UNKNOWN_ENTRY_TYPE)
    /\ (result = true ->
        lc_sequence_number copied = None
        /\ lc_merkle_leaf_hash copied = None
        /\ lc_sct copied
           = Some (mkSCT (Some V1) EmptyString
                     (te_timestamp (timestamped_entry (cl_leaf entry)))
                     (Some (te_extensions (timestamped_entry (cl_leaf entry))))
                     EmptyString)
        /\ exists e,
             lc_entry copied = Some e
             /\ type e
                = Some (te_entry_type (timestamped_entry (cl_leaf entry)))).
Proof.
  unfold CopyFromClientLogEntry.
  destruct (te_entry_type (timestamped_entry (cl_leaf entry))) eqn:Htype;
    cbn; do 2 eexists; (split; [reflexivity|]);
    (split; [split; discriminate || reflexivity|]);
    try discriminate; intros _; repeat split; eexists; split; reflexivity.
Qed.

(** X14.  What the leaf holds wins over the entry that came with it.  For an
    X509 leaf the leaf_certificate is the leaf's certificate and the chain is
    the one of the accompanying entry; for a precertificate leaf the
    issuer_key_hash and tbs_certificate are the leaf's and the
    pre_certificate and its chain the accompanying entry's; for a signed-data
    leaf the keyid and data are the leaf's and the signature the
    accompanying entry's.  Payloads of the other variants are copied from
    the accompanying entry as they are. *)
Theorem CopyFromClientLogEntry_leaf_wins (this : LoggedCertificate)
    (entry : AsyncLogClient_Entry) (copied : LoggedCertificate) :
  CopyFromClientLogEntry this entry = Some ((true, copied), []) ->
  let te := timestamped_entry (cl_leaf entry) in
  let old := cl_entry entry in
  let new := default LogEntry_new (lc_entry copied) in
  match te_entry_type te with
  | X509_ENTRY =>
      x509_entry new
      = Some (mkX509ChainEntry
                (Some (se_x509 (te_signed_entry te)))
                (certificate_chain
                   (default X509ChainEntry_new (x509_entry old))))
      /\ precert_entry new = precert_entry old
      /\ signed_data_entry new = signed_data_entry old
  | PRECERT_ENTRY =>
      let p := default PrecertChainEntry_new (precert_entry old) in
      precert_entry new
      = Some (mkPrecertChainEntry (pre_certificate p) (precertificate_chain p)
                (Some (mkPreCert
                         (Some (leaf_issuer_key_hash
                                  (se_precert (te_signed_entry te))))
                         (Some (leaf_tbs_certificate
                                  (se_precert (te_signed_entry te)))))))
      /\ x509_entry new = x509_entry old
      /\ signed_data_entry new = signed_data_entry old
  | SIGNED_DATA_ENTRY =>
      signed_data_entry new
      = Some (mkSignedDataEntry
                (Some (leaf_keyid (se_data (te_signed_entry te))))
                (Some (leaf_data (se_data (te_signed_entry te))))
                (sde_signature
                   (default SignedDataEntry_new (signed_data_entry old))))
      /\ x509_entry new = x509_entry old
      /\ precert_entry new = precert_entry old
  | UNKNOWN_ENTRY_TYPE => False
  end.
Proof.
  unfold CopyFromClientLogEntry.
  destruct (te_entry_type (timestamped_entry (cl_leaf entry))) eqn:Htype;
    cbn; intros [= <-]; cbn; rewrite ?Htype; repeat split.
Qed.

(** ** Parameters of a parsed query *)

(** X15.  [GetIntParam] on a parsed query returns -1 when the query string
    could not be parsed, and when it carries the parameter not at all or
    more than once. *)
Theorem GetIntParam_missing_or_duplicate (req : evhttp_request)
    (param : string) :
  (req_query req = None -> GetIntParam (ParseQuery req) param = -1)
  /\ (forall keyval,
        req_query req = Some keyval ->
        length (with_key param keyval) <> 1%nat ->
        GetIntParam (ParseQuery req) param = -1).
Proof.
  split.
  - intros Hq. unfold GetIntParam, ParseQuery. rewrite Hq. reflexivity.
  - intros keyval Hq Hlen. unfold GetIntParam.
    rewrite (GetParam_ParseQuery req keyval param EmptyString Hq).
    destruct (with_key param keyval) as [|[k v] [|kv' rest]];
      cbn in Hlen; try reflexivity. congruence.
Qed.

(** X16.  [GetBoolParam] on a parsed query is true exactly when the query
    string carries the parameter once and with the value "true". *)
Theorem GetBoolParam_true_iff (req : evhttp_request)
    (keyval : list (string * string)) (param : string) :
  req_query req = Some keyval ->
  GetBoolParam (ParseQuery req) param = true
  <-> exists key, with_key param keyval = [(key, "true")].
Proof.
  intros Hq. unfold GetBoolParam.
  rewrite (GetParam_ParseQuery req keyval param EmptyString Hq).
  destruct (with_key param keyval) as [|[k v] [|kv' rest]]; cbn.
  - split; [discriminate | intros [key H]; discriminate].
  - split.
    + intros H. apply String.eqb_eq in H. subst v. exists k. reflexivity.
    + intros [key [= _ ->]]. reflexivity.
  - split; [discriminate | intros [key H]; discriminate].
Qed.

(** ** get-roots and get-proof-by-hash *)

Lemma encode_roots_all (trusted : list (string * Cert)) (ders : list string) :
  Forall2 (fun kc d => DerEncoding (snd kc) = Some d) trusted ders ->
  forall roots,
    encode_roots trusted roots = Some (roots ++ map J_base64 ders).
Proof.
  induction 1 as [|[k cert] der rest ders Hder _ IH]; intros roots; cbn.
  - rewrite app_nil_r. reflexivity.
  - cbn in Hder. rewrite Hder, IH, <- app_assoc. reflexivity.
Qed.

Lemma encode_roots_fails (trusted : list (string * Cert)) :
  Exists (fun kc => DerEncoding (snd kc) = None) trusted ->
  forall roots, encode_roots trusted roots = None.
Proof.
  induction 1 as [[k cert] rest Hnone | [k cert] rest _ IH]; intros roots; cbn.
  - cbn in Hnone. rewrite Hnone. reflexivity.
  - destruct (DerEncoding cert); [apply IH | reflexivity].
Qed.

(** X17.  For a GET, get-roots answers 200 with the DER encodings of all
    trusted certificates, in the order of the trust store, when every one of
    them encodes, and 500 "Serialisation failed." with no certificate when
    one of them does not.  On a handler without certificate checker the
    handler dereferences the null checker. *)
Theorem GetRoots_outcome (this : HttpHandler) (req : evhttp_request) :
  is_GET (evhttp_request_get_command req) = true ->
  (forall checker ders,
     cert_checker_ this = Some checker ->
     Forall2 (fun kc d => DerEncoding (snd kc) = Some d)
             (GetTrustedCertificates checker) ders ->
     GetRoots this req
     = Some (tt, [EvSendJsonReply req 200
                    (J_object [("certificates",
                                J_array (map J_base64 ders))])]))
  /\ (forall checker,
        cert_checker_ this = Some checker ->
        Exists (fun kc => DerEncoding (snd kc) = None)
               (GetTrustedCertificates checker) ->
        GetRoots this req
        = Some (tt, [EvSendError req 500 "Serialisation failed."]))
  /\ (cert_checker_ this = None -> GetRoots this req = None).
Proof.
  intros Hget. unfold GetRoots. rewrite Hget. cbn [negb].
  split; [|split].
  - intros checker ders -> Hall. cbn [deref]. rewrite bind_ret.
    rewrite (encode_roots_all _ _ Hall). reflexivity.
  - intros checker -> Hbad. cbn [deref]. rewrite bind_ret.
    rewrite (encode_roots_fails _ Hbad). reflexivity.
  - intros ->. reflexivity.
Qed.

(** X18.  get-proof-by-hash answers 200 only when the query carries "hash"
    once and it decodes to a non-empty string, "tree_size" lies between 0
    and the tree size of the current STH, and the lookup finds an audit
    proof for that hash and size; the body is the leaf index and the path
    nodes of that proof, in order. *)
Theorem GetProof_200 (this : HttpHandler) (req req' : evhttp_request)
    (code : Z) (json : JsonValue) :
  GetProof this req = Some (tt, [EvSendJsonReply req' code json]) ->
  exists b64_hash proof,
    GetParam (ParseQuery req) "hash" EmptyString = (true, b64_hash)
    /\ FromBase64 b64_hash <> EmptyString
    /\ 0 <= GetIntParam (ParseQuery req) "tree_size"
       <= sth_tree_size (lookup_GetSTH (log_lookup_ this))
    /\ AuditProof (log_lookup_ this) (FromBase64 b64_hash)
                  (GetIntParam (ParseQuery req) "tree_size")
       = Some proof
    /\ json = J_object [("leaf_index", J_int (proof_leaf_index proof));
                        ("audit_path",
                         J_array (map J_base64 (proof_path_node proof)))]
    /\ req' = req /\ code = 200.
Proof.
  unfold GetProof.
  destruct (negb (is_GET _)); [discriminate|].
  destruct (GetParam (ParseQuery req) "hash" EmptyString)
    as [[|] b64_hash] eqn:Hhash; cbn [negb]; [|discriminate].
  destruct (String.eqb_spec (FromBase64 b64_hash) EmptyString) as [|Hne];
    [discriminate|].
  destruct (GetIntParam (ParseQuery req) "tree_size" <? 0) eqn:Hlo;
    [discriminate|].
  destruct (GetIntParam (ParseQuery req) "tree_size" >? _) eqn:Hhi;
    [discriminate|].
  cbn [orb].
  destruct (AuditProof _ _ _) as [proof|] eqn:Hproof; [|discriminate].
  intros [= <- <- <-]. exists b64_hash, proof.
  apply Z.ltb_ge in Hlo. rewrite Z.gtb_ltb in Hhi. apply Z.ltb_ge in Hhi.
  repeat split; auto.
Qed.

(** X19.  When the precertificate checker accepts and every certificate of
    the chain it hands back DER-encodes, [ProcessPreCertSubmission] returns
    OK with the tag PRECERT_ENTRY, the issuer key hash and TBS certificate
    the checker produced, and the leaf's encoding as pre_certificate; the
    encodings of the other certificates are appended, in order, to whatever
    precertificate_chain the entry already held, and the payloads of the
    other variants are handed back as they were given. *)
Theorem ProcessPreCertSubmission_succeeds (cert_checker : CertChecker)
    (chain chain' : PreCertChain) (entry : LogEntry) (status : Status)
    (key_hash tbs leaf_der : string) (chain_ders : list string) :
  CheckPreCertChain cert_checker chain
    (default EmptyString (issuer_key_hash (get_pre_cert entry)))
    (default EmptyString (tbs_certificate (get_pre_cert entry)))
  = (status, chain', key_hash, tbs) ->
  ok status = true ->
  Forall2 (fun c d => DerEncoding c = Some d) chain' (leaf_der :: chain_ders) ->
  ProcessPreCertSubmission cert_checker chain entry
  = Some ((Status_OK,
           mkLogEntry (Some PRECERT_ENTRY) (x509_entry entry)
             (Some (mkPrecertChainEntry (Some leaf_der)
                      (precertificate_chain
                         (default PrecertChainEntry_new (precert_entry entry))
                       ++ chain_ders)
                      (Some (mkPreCert (Some key_hash) (Some tbs)))))
             (signed_data_entry entry)),
          [EvCheckPreCertChain chain]).
Proof.
  intros Hcheck Hok Hall. unfold ProcessPreCertSubmission.
  rewrite call_eq.
  change (default PreCert_new
            (pre_cert
               (default PrecertChainEntry_new
                  (precert_entry
                     (mutable_precert_entry (mutable_pre_cert id)
                        (mutable_precert_entry id entry))))))
    with (get_pre_cert entry).
  rewrite Hcheck. cbn [bind ret app]. rewrite Hok. cbn [negb].
  destruct chain' as [|leaf rest]; [inversion Hall|].
  apply Forall2_cons in Hall as [Hder Hall].
  cbn [LeafCert head deref drop]. rewrite bind_ret, Hder.
  rewrite (encode_issuers_all _ _ _ Hall).
  change (mutable_precert_entry (set_pre_certificate leaf_der) _)
    with (mkLogEntry (type entry) (x509_entry entry)
            (Some (mkPrecertChainEntry (Some leaf_der)
                     (precertificate_chain
                        (default PrecertChainEntry_new (precert_entry entry)))
                     (Some (mkPreCert (Some key_hash) (Some tbs)))))
            (signed_data_entry entry)).
  rewrite fold_add_precertificate_chain. reflexivity.
Qed.

End MoreProperties.

(** ** Witnesses of the further properties *)

Lemma ParseQuery_sorted_permutation_witness :
  ParseQuery (Fixture.get [("start", "3"); ("end", "9"); ("start", "4")])
  = [("end", "9"); ("start", "3"); ("start", "4")]
  /\ sorted_by_key
       (ParseQuery (Fixture.get [("start", "3"); ("end", "9"); ("start", "4")])).
Proof.
  split; [reflexivity|].
  apply (ParseQuery_sorted_permutation
           (Fixture.get [("start", "3"); ("end", "9"); ("start", "4")])
           [("start", "3"); ("end", "9"); ("start", "4")] eq_refl).
Defined.

Lemma GetParam_exactly_once_witness :
  GetParam (ParseQuery (Fixture.get [("start", "3"); ("end", "9")]))
           "end" EmptyString = (true, "9")
  /\ GetParam
       (ParseQuery (Fixture.get [("start", "3"); ("end", "9"); ("start", "4")]))
       "start" "untouched" = (false, "untouched").
Proof.
  split.
  - apply (GetParam_exactly_once
             (Fixture.get [("start", "3"); ("end", "9")])
             [("start", "3"); ("end", "9")] "end" EmptyString eq_refl).
  - apply (GetParam_exactly_once
             (Fixture.get [("start", "3"); ("end", "9"); ("start", "4")])
             [("start", "3"); ("end", "9"); ("start", "4")]
             "start" "untouched" eq_refl).
Defined.

Lemma BlockingGetEntries_consecutive_witness :
  exists records,
    length records = 2%nat
    /\ Forall2 (entry_record (codec := Fixture.codec) false)
               (take (length records)
                     (ScanEntries (db_ (Fixture.handler 3 false)) 1))
               records.
Proof.
  destruct (BlockingGetEntries_consecutive
              (backend := Fixture.backend) (codec := Fixture.codec)
              (Fixture.handler 3 false) (Fixture.get []) (Fixture.get [])
              1 5 false 200
              (J_object
                 [("entries",
                   J_array
                     [J_object [("leaf_input", J_base64 "leaf");
                                ("extra_data", J_base64 "extra")];
                      J_object [("leaf_input", J_base64 "leaf");
                                ("extra_data", J_base64 "extra")]])])
              eq_refl)
    as (records & Hjson & _ & _ & Hall & _).
  exists records. split; [|exact Hall].
  injection Hjson as <-. reflexivity.
Defined.

Lemma read_handlers_reply_once_witness :
  replies_once (Fixture.get []) [405; 500]
    (GetRoots (backend := Fixture.backend) (Fixture.handler 0 false)
              (Fixture.get [])).
Proof.
  destruct (read_handlers_reply_once
              (backend := Fixture.backend) (codec := Fixture.codec)
              (libc := Fixture.glibc) (FLAGS := default_flags)
              (Fixture.handler 0 false) (Fixture.get []))
    as (_ & _ & _ & _ & Hroots).
  apply Hroots. eexists. reflexivity.
Defined.

Lemma ProcessX509Submission_check_fails_witness :
  ProcessX509Submission Fixture.rejecting [Fixture.leaf]
    (set_type PRECERT_ENTRY LogEntry_new)
  = Some ((Fixture.unauthenticated, set_type PRECERT_ENTRY LogEntry_new),
          [EvCheckCertChain [Fixture.leaf]]).
Proof.
  apply (ProcessX509Submission_check_fails (backend := Fixture.backend)
           Fixture.rejecting [Fixture.leaf]
           (set_type PRECERT_ENTRY LogEntry_new) eq_refl eq_refl).
Defined.

Lemma ProcessPreCertSubmission_check_fails_witness :
  exists entry',
    ProcessPreCertSubmission MoreFixture.rejecting [MoreFixture.leaf]
      LogEntry_new
    = Some ((Fixture.unauthenticated, entry'),
            [EvCheckPreCertChain [MoreFixture.leaf]])
    /\ get_pre_cert entry'
       = mkPreCert (Some "partial-hash") (Some "partial-tbs")
    /\ entry' <> LogEntry_new.
Proof.
  destruct (ProcessPreCertSubmission_check_fails
              (backend := MoreFixture.backend) MoreFixture.rejecting
              [MoreFixture.leaf] [MoreFixture.leaf] LogEntry_new
              Fixture.unauthenticated "partial-hash" "partial-tbs"
              eq_refl eq_refl)
    as (entry' & Hrun & Hpre & Hsome & _).
  exists entry'. split; [exact Hrun|]. split; [exact Hpre|].
  intros ->. destruct Hsome as [p Hp]. discriminate Hp.
Defined.

Lemma ProcessX509Submission_encoding_fails_witness :
  exists entry',
    ProcessX509Submission MoreFixture.accepting
      [MoreFixture.leaf; MoreFixture.broken] LogEntry_new
    = Some ((mkStatus error.INTERNAL "could not DER-encode the chain", entry'),
            [EvCheckCertChain [MoreFixture.leaf; MoreFixture.broken]])
    /\ type entry' = None.
Proof.
  apply (ProcessX509Submission_encoding_fails
           (backend := MoreFixture.backend) MoreFixture.accepting
           [MoreFixture.leaf; MoreFixture.broken]
           [MoreFixture.leaf; MoreFixture.broken] LogEntry_new Status_OK
           eq_refl eq_refl eq_refl).
  apply Exists_cons_tl, Exists_cons_hd. reflexivity.
Defined.

Lemma ProcessX509Submission_succeeds_witness :
  ProcessX509Submission Fixture.accepting [Fixture.leaf; Fixture.issuer]
    (mkLogEntry None (Some (mkX509ChainEntry None ["stale"])) None None)
  = Some ((Status_OK,
           mkLogEntry (Some X509_ENTRY)
             (Some (mkX509ChainEntry (Some "der:leaf") ["stale"; "der:issuer"]))
             None None),
          [EvCheckCertChain [Fixture.leaf; Fixture.issuer]]).
Proof.
  apply (ProcessX509Submission_succeeds (backend := Fixture.backend)
           Fixture.accepting [Fixture.leaf; Fixture.issuer]
           [Fixture.leaf; Fixture.issuer]
           (mkLogEntry None (Some (mkX509ChainEntry None ["stale"])) None None)
           Status_OK "der:leaf" ["der:issuer"] eq_refl eq_refl eq_refl).
  repeat constructor.
Defined.

Lemma ProcessPreCertSubmission_succeeds_witness :
  ProcessPreCertSubmission Fixture.accepting
    [Fixture.leaf_with_sct; Fixture.issuer] LogEntry_new
  = Some ((Status_OK,
           mkLogEntry (Some PRECERT_ENTRY) None
             (Some (mkPrecertChainEntry (Some "der:leaf") ["der:issuer"]
                      (Some (mkPreCert (Some "hash-of-issuer-key")
                                       (Some "tbs:leaf")))))
             None),
          [EvCheckPreCertChain [Fixture.leaf_with_sct; Fixture.issuer]]).
Proof.
  apply (ProcessPreCertSubmission_succeeds (backend := Fixture.backend)
           Fixture.accepting [Fixture.leaf_with_sct; Fixture.issuer]
           [Fixture.leaf_with_sct; Fixture.issuer] LogEntry_new Status_OK
           "hash-of-issuer-key" "tbs:leaf" "der:leaf" ["der:issuer"]
           eq_refl eq_refl).
  repeat constructor.
Defined.

Lemma X509ChainToEntry_returns_witness :
  exists entry',
    X509ChainToEntry (backend := Fixture.backend) [Fixture.leaf] LogEntry_new
    = Some ((true, entry'), [])
    /\ type entry' = Some X509_ENTRY.
Proof.
  destruct (X509ChainToEntry_returns (backend := Fixture.backend)
              [Fixture.leaf] LogEntry_new)
    as (result & entry' & Hrun & _ & Htag).
  assert (Hresult : result = true).
  { vm_compute in Hrun. injection Hrun as <- _. reflexivity. }
  subst result. exists entry'. split; [exact Hrun|].
  destruct (Htag eq_refl) as (leaf & Hleaf & Htype & _).
  injection Hleaf as <-. exact Htype.
Defined.

Lemma SerializedTbs_succeeds_iff_witness :
  SerializedTbs (backend := Fixture.backend) Fixture.leaf_with_sct
  = Some "tbs:leaf".
Proof.
  apply (SerializedTbs_succeeds_iff (backend := Fixture.backend)
           Fixture.leaf_with_sct "tbs:leaf").
  split; [reflexivity|]. split; [reflexivity|].
  left. split; [reflexivity|].
  exists (Fixture.mkTbs "leaf" false). split; reflexivity.
Defined.

Lemma CopyFromClientLogEntry_outcome_witness :
  exists copied,
    CopyFromClientLogEntry (backend := Fixture.backend) Fixture.stored
      MoreFixture.x509_leaf
    = Some ((true, copied), [])
    /\ lc_sequence_number copied = None
    /\ lc_sct copied = Some (mkSCT (Some V1) EmptyString 7 (Some "ext") EmptyString).
Proof.
  destruct (CopyFromClientLogEntry_outcome (backend := Fixture.backend)
              Fixture.stored MoreFixture.x509_leaf)
    as (result & copied & Hrun & _ & Htrue).
  assert (Hresult : result = true).
  { vm_compute in Hrun. injection Hrun as <- _. reflexivity. }
  subst result. exists copied. split; [exact Hrun|].
  destruct (Htrue eq_refl) as (Hseq & _ & Hsct & _).
  split; [exact Hseq | exact Hsct].
Defined.

Lemma CopyFromClientLogEntry_leaf_wins_witness :
  exists copied,
    CopyFromClientLogEntry (backend := Fixture.backend) Fixture.stored
      MoreFixture.x509_leaf
    = Some ((true, copied), [])
    /\ x509_entry (default LogEntry_new (lc_entry copied))
       = Some (mkX509ChainEntry (Some "leaf-der") ["issuer-der"]).
Proof.
  eexists. split; [reflexivity|].
  apply (CopyFromClientLogEntry_leaf_wins (backend := Fixture.backend)
           Fixture.stored MoreFixture.x509_leaf _ eq_refl).
Defined.

Lemma GetIntParam_missing_or_duplicate_witness :
  GetIntParam (libc := Fixture.glibc)
    (ParseQuery (Fixture.get [("start", "3"); ("end", "9"); ("start", "4")]))
    "start" = -1
  /\ GetIntParam (libc := Fixture.glibc)
       (ParseQuery (mkRequest EVHTTP_REQ_GET None None)) "start" = -1.
Proof.
  split.
  - destruct (GetIntParam_missing_or_duplicate (libc := Fixture.glibc)
                (Fixture.get [("start", "3"); ("end", "9"); ("start", "4")])
                "start") as [_ Hdup].
    apply (Hdup [("start", "3"); ("end", "9"); ("start", "4")] eq_refl).
    vm_compute. discriminate.
  - destruct (GetIntParam_missing_or_duplicate (libc := Fixture.glibc)
                (mkRequest EVHTTP_REQ_GET None None) "start") as [Hnone _].
    apply Hnone. reflexivity.
Defined.

Lemma GetBoolParam_true_iff_witness :
  GetBoolParam
    (ParseQuery (Fixture.get [("start", "3"); ("include_scts", "true")]))
    "include_scts" = true.
Proof.
  apply (GetBoolParam_true_iff
           (Fixture.get [("start", "3"); ("include_scts", "true")])
           [("start", "3"); ("include_scts", "true")] "include_scts" eq_refl).
  exists "include_scts". reflexivity.
Defined.

Lemma GetRoots_outcome_witness :
  GetRoots (backend := Fixture.backend) (Fixture.handler 0 false)
           (Fixture.get [])
  = Some (tt, [EvSendJsonReply (Fixture.get []) 200
                 (J_object [("certificates",
                             J_array [J_base64 "der:issuer"])])]).
Proof.
  destruct (GetRoots_outcome (backend := Fixture.backend)
              (Fixture.handler 0 false) (Fixture.get []) eq_refl)
    as (Hall & _ & _).
  apply (Hall Fixture.accepting ["der:issuer"] eq_refl).
  repeat constructor.
Defined.

Lemma GetProof_200_witness :
  exists b64_hash proof,
    GetParam
      (ParseQuery (Fixture.get [("hash", "leaf-hash"); ("tree_size", "8")]))
      "hash" EmptyString = (true, b64_hash)
    /\ AuditProof MoreFixture.lookup
         (FromBase64 (Codec := Fixture.codec) b64_hash) 8 = Some proof.
Proof.
  destruct (GetProof_200
              (backend := MoreFixture.backend) (codec := Fixture.codec)
              (libc := Fixture.glibc)
              MoreFixture.handler
              (Fixture.get [("hash", "leaf-hash"); ("tree_size", "8")])
              (Fixture.get [("hash", "leaf-hash"); ("tree_size", "8")])
              200
              (J_object [("leaf_index", J_int 5);
                         ("audit_path",
                          J_array [J_base64 "node-a"; J_base64 "node-b";
                                   J_base64 "node-c"])])
              eq_refl)
    as (b64_hash & proof & Hhash & _ & _ & Hproof & _).
  exists b64_hash, proof. split; [exact Hhash | exact Hproof].
Defined.

Lemma GetIntParam_out_of_range_witness :
  GetIntParam (libc := Fixture.glibc) [("start", "4294967296")] "start" = -1.
Proof.
  apply (GetIntParam_out_of_range (libc := Fixture.glibc)
           [("start", "4294967296")] "start" "4294967296" 4294967296 0
           eq_refl eq_refl).
  right. right. vm_compute. discriminate.
Defined.

Lemma GetIntParam_in_range_witness :
  GetIntParam (libc := Fixture.glibc) [("start", "  -42")] "start" = -42.
Proof.
  apply (GetIntParam_in_range (libc := Fixture.glibc)
           [("start", "  -42")] "start" "  -42" (-42) eq_refl eq_refl).
  split; [vm_compute; discriminate | reflexivity].
Defined.

Lemma GetEntries_at_most_cap_plus_one_witness :
  Z.of_nat (length [J_object [("leaf_input", J_base64 "leaf");
                              ("extra_data", J_base64 "extra")]])
  <= Z.max 0 (@FLAGS_max_leaf_entries_per_response default_flags + 1).
Proof.
  apply (GetEntries_at_most_cap_plus_one
           (backend := Fixture.backend) (codec := Fixture.codec)
           (libc := Fixture.glibc) (FLAGS := default_flags)
           (Fixture.handler 3 false)
           (Fixture.get [("start", "2"); ("end", "7")])
           (Fixture.get [("start", "2"); ("end", "7")]) 200
           [J_object [("leaf_input", J_base64 "leaf");
                      ("extra_data", J_base64 "extra")]]
           []).
  vm_compute. reflexivity.
Defined.

Lemma AddChain_outcome_witness :
  AddChain (backend := Fixture.backend) (codec := Fixture.codec)
    (Fixture.handler 0 false) (Fixture.get [])
  = Some (tt, [EvSendError (Fixture.get []) 405 "Method not allowed."])
  /\ AddChain (backend := Fixture.backend) (codec := Fixture.codec)
       (Fixture.handler 0 false)
       (Fixture.post (J_object [("chain", J_array [J_string "leaf"])]))
     = Some (tt,
             [EvPoolAdd
                (Task_BlockingAddChain
                   (Fixture.post (J_object [("chain", J_array [J_string "leaf"])]))
                   [decode_cert (backend := Fixture.backend)
                                (codec := Fixture.codec) "leaf"])]).
Proof.
  split.
  - destruct (AddChain_outcome (backend := Fixture.backend)
                (codec := Fixture.codec) (Fixture.handler 0 false)
                (Fixture.get []))
      as [(_ & Hrun & _) | [(Hpost & _) | (Hpost & _)]];
      [exact Hrun | discriminate Hpost | discriminate Hpost].
  - destruct (AddChain_outcome (backend := Fixture.backend)
                (codec := Fixture.codec) (Fixture.handler 0 false)
                (Fixture.post (J_object [("chain", J_array [J_string "leaf"])])))
      as [(Hpost & _) | [(_ & Hnot & _) | (_ & fields & ders & Hb & Hf & _ & Hrun & _)]].
    + discriminate Hpost.
    + exfalso. apply Hnot.
      exists [("chain", J_array [J_string "leaf"])], ["leaf"].
      repeat split. repeat constructor.
    + injection Hb as <-. vm_compute in Hf.
      destruct ders as [|d [|d' ders]]; try discriminate Hf.
      injection Hf as <-. exact Hrun.
Defined.

Lemma AddSignedData_outcome_witness :
  AddSignedData (backend := Fixture.backend) (codec := Fixture.codec)
    (Fixture.handler 0 false) (Fixture.post (J_object [("keyid", J_string "k")]))
  = Some (tt,
          [EvSendError (Fixture.post (J_object [("keyid", J_string "k")]))
             400 "Unable to parse provided JSON."]).
Proof.
  destruct (AddSignedData_outcome (backend := Fixture.backend)
              (codec := Fixture.codec) (Fixture.handler 0 false)
              (Fixture.post (J_object [("keyid", J_string "k")])))
    as [(Hpost & _) | [(_ & _ & Hrun) | (_ & fields & k & g & d & Hb & _ & Hs & _)]].
  - discriminate Hpost.
  - exact Hrun.
  - injection Hb as <-. discriminate Hs.
Defined.
